(** * ERPRO storage layer: a shallow embedding of [server/storage.ts]

    The development follows the server side of the repository:

    - [shared/schema.ts]   the tables ([pessoas], [afastamentos], [diarias],
                           [armamento]) and the insert schemas;
    - [server/storage.ts]  the class [DatabaseStorage] and the route
                           [POST /api/pessoas] of [registerRoutes].

    The relational store is a record of tables, each table a list of rows in
    physical order.  Timestamps are milliseconds ([Date.getTime()]) and
    calendar dates are day numbers, both in [Z].  The clock read by
    [new Date()] and by the column default [now()] is an explicit argument
    [now] of every operation that reads it.  A nullable column is an
    [option]. *)

From Stdlib Require Import String Ascii.
From Stdlib Require Import ZArith List Bool Lia Permutation Sorted.
Import ListNotations.
Local Open Scope string_scope.
Local Open Scope list_scope.
Local Open Scope Z_scope.

(** ** SQL conditions

    A condition evaluates to TRUE, FALSE or NULL; [WHERE] keeps the rows on
    which it is TRUE. *)
Module Sql.

Definition tri := option bool.

Definition holds (t : tri) : bool :=
  match t with Some true => true | _ => false end.

Definition and3 (a b : tri) : tri :=
  match a, b with
  | Some false, _ | _, Some false => Some false
  | Some true, Some true => Some true
  | _, _ => None
  end.

Definition or3 (a b : tri) : tri :=
  match a, b with
  | Some true, _ | _, Some true => Some true
  | Some false, Some false => Some false
  | _, _ => None
  end.

(** [col = v], [col <= v], [col >= v] on a nullable column. *)
Definition cmp {A : Type} (test : A -> A -> bool) (col : option A) (v : A) : tri :=
  match col with Some c => Some (test c v) | None => None end.

Definition is_null {A : Type} (col : option A) : tri :=
  match col with Some _ => Some false | None => Some true end.

(** PostgreSQL [LIKE]: [%] matches any sequence, [_] any one character, a
    backslash takes the next pattern character literally.  A pattern that
    ends in a lone backslash is an error in PostgreSQL; it is [false] here
    and cannot arise from the patterns of this program, which all end in
    [%].  Strings are sequences of bytes here, so [_] takes one byte: one
    character of ASCII text, a part of a character beyond ASCII. *)
Fixpoint like_match (p s : string) {struct p} : bool :=
  match p with
  | EmptyString => match s with EmptyString => true | String _ _ => false end
  | String c p' =>
      if Ascii.eqb c "%" then
        (fix star (s : string) : bool :=
           like_match p' s
           || match s with EmptyString => false | String _ s' => star s' end) s
      else if Ascii.eqb c "_" then
        match s with EmptyString => false | String _ s' => like_match p' s' end
      else if Ascii.eqb c "\" then
        match p' with
        | EmptyString => false
        | String c2 p'' =>
            match s with
            | EmptyString => false
            | String d s' => Ascii.eqb c2 d && like_match p'' s'
            end
        end
      else
        match s with
        | EmptyString => false
        | String d s' => Ascii.eqb c d && like_match p' s'
        end
  end.

End Sql.

(** ** The query builder of drizzle-orm

    A select builder carries one configuration object.  Its methods
    [where], [orderBy] and [limit] (drizzle-orm,
    [pg-core/query-builders/select.ts]) each assign their slot of it, as in
    [this.config.where = where], and return the builder: a second [where] on
    one builder replaces the condition set by the first, it does not add to
    it.  Conditions are combined with [and(...)] inside one [where]. *)
Module Drizzle.

Record PgSelect (R : Type) : Type := mkSelect {
  from : list R;
  config_where : option (R -> Sql.tri);
  config_orderBy : option (R -> Z);
  config_limit : option nat
}.
Arguments mkSelect {R}.
Arguments from {R}.
Arguments config_where {R}.
Arguments config_orderBy {R}.
Arguments config_limit {R}.

Definition select_from {R : Type} (t : list R) : PgSelect R :=
  mkSelect t None None None.

Definition where_ {R : Type} (q : PgSelect R) (c : R -> Sql.tri) : PgSelect R :=
  mkSelect (from q) (Some c) (config_orderBy q) (config_limit q).

(** [orderBy(desc(col))]. *)
Definition orderBy_desc {R : Type} (q : PgSelect R) (col : R -> Z) : PgSelect R :=
  mkSelect (from q) (config_where q) (Some col) (config_limit q).

Definition limit {R : Type} (q : PgSelect R) (n : nat) : PgSelect R :=
  mkSelect (from q) (config_where q) (config_orderBy q) (Some n).

(** [ORDER BY col DESC]: a stable descending sort of the rows in physical
    order.  (PostgreSQL leaves the order of rows with equal keys open; the
    model fixes the stable one.) *)
Fixpoint insert_desc {R : Type} (key : R -> Z) (x : R) (l : list R) : list R :=
  match l with
  | [] => [x]
  | y :: l' => if key y <=? key x then x :: l else y :: insert_desc key x l'
  end.

Definition sort_desc {R : Type} (key : R -> Z) (l : list R) : list R :=
  fold_right (insert_desc key) [] l.

(** Awaiting the builder runs [SELECT ... WHERE ... ORDER BY ... LIMIT ...]. *)
Definition execute {R : Type} (q : PgSelect R) : list R :=
  let rows :=
    match config_where q with
    | Some c => filter (fun r => Sql.holds (c r)) (from q)
    | None => from q
    end in
  let rows :=
    match config_orderBy q with
    | Some col => sort_desc col rows
    | None => rows
    end in
  match config_limit q with
  | Some n => firstn n rows
  | None => rows
  end.

(** [FROM a LEFT JOIN b ON on]: every row of [a] with each matching row of
    [b], or once with NULLs when none matches. *)
Definition leftJoin {A B : Type} (a : list A) (b : list B) (on : A -> B -> Sql.tri)
  : list (A * option B) :=
  flat_map (fun x =>
    match filter (fun y => Sql.holds (on x y)) b with
    | [] => [(x, None)]
    | ys => map (fun y => (x, Some y)) ys
    end) a.

(** [db.update(t).set(..).where(c).returning()]: the new table and the rows
    that were updated, in their new state. *)
Definition update_set {R : Type} (t : list R) (set : R -> R) (c : R -> Sql.tri)
  : list R * list R :=
  (map (fun r => if Sql.holds (c r) then set r else r) t,
   map set (filter (fun r => Sql.holds (c r)) t)).

(** [select({ count: count() })]: one row holding the number of rows kept. *)
Definition count {R : Type} (q : PgSelect R) : Z :=
  Z.of_nat (length (execute q)).

End Drizzle.

(** ** [shared/schema.ts]: the rows

    [varchar] and [text] columns are strings, [date] columns day numbers,
    [timestamp] columns milliseconds, [decimal] columns the strings the
    driver returns.  A column without [.notNull()] is an [option].  The
    columns [created_at] and [updated_at] are nullable in the schema, but
    every insert schema omits them, so each row the storage layer inserts
    takes the default [now()]; they are plain timestamps in the rows. *)

Module Pessoa.
Record t : Type := mk {
  id : Z;
  nome : string;
  nomeSocial : option string;
  cpf : string;
  rg : option string;
  dataNascimento : Z;
  sexo : string;
  estadoCivil : option string;
  nomePai : option string;
  nomeMae : option string;
  telefone : option string;
  email : option string;
  endereco : option string;
  municipioId : option Z;
  cep : option string;
  tipoPessoa : string;
  isActive : option bool;
  createdAt : Z;
  updatedAt : Z
}.
End Pessoa.

(** [InsertPessoa = z.infer<typeof insertPessoaSchema>]: the columns of
    [pessoas] without [id], [createdAt] and [updatedAt].  For a nullable
    column without default, an absent key and [null] both store NULL and are
    one [None]; [isActive] has the default [true], so its absent key
    ([None]) differs from an explicit [null] ([Some None]). *)
Module InsertPessoa.
Record t : Type := mk {
  nome : string;
  nomeSocial : option string;
  cpf : string;
  rg : option string;
  dataNascimento : Z;
  sexo : string;
  estadoCivil : option string;
  nomePai : option string;
  nomeMae : option string;
  telefone : option string;
  email : option string;
  endereco : option string;
  municipioId : option Z;
  cep : option string;
  tipoPessoa : string;
  isActive : option (option bool)
}.
End InsertPessoa.

(** [Partial<InsertPessoa>]: every key may be absent ([None]); a present key
    of a nullable column holds a value or [null]. *)
Module PartialInsertPessoa.
Record t : Type := mk {
  nome : option string;
  nomeSocial : option (option string);
  cpf : option string;
  rg : option (option string);
  dataNascimento : option Z;
  sexo : option string;
  estadoCivil : option (option string);
  nomePai : option (option string);
  nomeMae : option (option string);
  telefone : option (option string);
  email : option (option string);
  endereco : option (option string);
  municipioId : option (option Z);
  cep : option (option string);
  tipoPessoa : option string;
  isActive : option (option bool)
}.

(** The patch with no key. *)
Definition empty : t :=
  mk None None None None None None None None None None None None None None None None.
End PartialInsertPessoa.

Module Afastamento.
Record t : Type := mk {
  id : Z;
  pessoaId : Z;
  tipoAfastamentoId : Z;
  dataInicio : Z;
  dataFim : option Z;
  motivo : option string;
  numeroProcesso : option string;
  observacoes : option string;
  isActive : option bool;
  createdAt : Z;
  updatedAt : Z
}.
End Afastamento.

Module Diaria.
Record t : Type := mk {
  id : Z;
  pessoaId : Z;
  statusId : Z;
  destino : string;
  finalidade : string;
  dataInicio : Z;
  dataFim : Z;
  valorDiaria : option string;
  valorTransporte : option string;
  valorTotal : option string;
  observacoes : option string;
  numeroProcesso : option string;
  isActive : option bool;
  createdAt : Z;
  updatedAt : Z
}.
End Diaria.

Module Armamento.
Record t : Type := mk {
  id : Z;
  numeroSerie : string;
  tipoArmaId : Z;
  marca : option string;
  modelo : option string;
  anoFabricacao : option Z;
  situacao : option string;
  observacoes : option string;
  isActive : option bool;
  createdAt : Z;
  updatedAt : Z
}.
End Armamento.

(** The database: the four tables the storage operations below read and
    write, and the identity sequence behind [pessoas.id]
    ([generatedByDefaultAsIdentity]). *)
Record Db : Type := mkDb {
  pessoas : list Pessoa.t;
  pessoas_id_seq : Z;
  afastamentos : list Afastamento.t;
  diarias : list Diaria.t;
  armamento : list Armamento.t
}.

Definition with_pessoas (db : Db) (t : list Pessoa.t) : Db :=
  mkDb t (pessoas_id_seq db) (afastamentos db) (diarias db) (armamento db).

Definition with_pessoas_id_seq (db : Db) (n : Z) : Db :=
  mkDb (pessoas db) n (afastamentos db) (diarias db) (armamento db).

(** ** [server/storage.ts]: helpers

    The drizzle operators [eq], [lte], [gte], [like] and [and] on columns,
    JavaScript truthiness of an optional filter, and array destructuring
    [const [x] = rows]. *)

Definition eq_bool (col : option bool) (v : bool) : Sql.tri := Sql.cmp Bool.eqb col v.
Definition eq_int (col : option Z) (v : Z) : Sql.tri := Sql.cmp Z.eqb col v.
Definition eq_text (col : option string) (v : string) : Sql.tri := Sql.cmp String.eqb col v.
Definition lte (col : option Z) (v : Z) : Sql.tri := Sql.cmp Z.leb col v.
Definition gte (col : option Z) (v : Z) : Sql.tri := Sql.cmp Z.geb col v.
Definition like (col : option string) (pattern : string) : Sql.tri :=
  Sql.cmp (fun s p => Sql.like_match p s) col pattern.
Definition and_ : Sql.tri -> Sql.tri -> Sql.tri := Sql.and3.

(** [if (filters?.k)] on a string: the key is present and not [""]. *)
Definition truthy_string (v : option string) : option string :=
  match v with
  | Some s => if String.eqb s "" then None else Some s
  | None => None
  end.

(** [if (filters?.k)] on a number: the key is present and not [0]. *)
Definition truthy_number (v : option Z) : option Z :=
  match v with
  | Some n => if n =? 0 then None else Some n
  | None => None
  end.

(** [filters?.k]. *)
Definition opt_chain {F A : Type} (filters : option F) (k : F -> option A) : option A :=
  match filters with Some f => k f | None => None end.

(** A storage call resolves with a value or rejects with the database's
    error. *)
Inductive DbError : Type :=
  | unique_violation (constraint : string).

Inductive Result (A : Type) : Type :=
  | Resolve (a : A)
  | Reject (e : DbError).
Arguments Resolve {A}.
Arguments Reject {A}.

(** ** Integrity constraints of [pessoas]

    [id] is the primary key and [cpf] is [.unique()]: PostgreSQL rejects a
    statement that would leave two rows with one [id] or one [cpf].  The
    payloads are taken to satisfy the other column constraints (lengths,
    the reference to [municipios]), as the ones that pass the insert schema
    and name an existing municipality do. *)
Definition cpf_taken (t : list Pessoa.t) (c : string) : bool :=
  existsb (fun p => String.eqb (Pessoa.cpf p) c) t.

Definition id_taken (t : list Pessoa.t) (i : Z) : bool :=
  existsb (fun p => Pessoa.id p =? i) t.

Definition cpf_count (t : list Pessoa.t) (c : string) : nat :=
  length (filter (fun p => String.eqb (Pessoa.cpf p) c) t).

(** After an update, the [cpf] of each row it wrote must be the [cpf] of
    that row alone. *)
Definition unique_after_update (t' written : list Pessoa.t) : bool :=
  forallb (fun r => Nat.leb (cpf_count t' (Pessoa.cpf r)) 1) written.

(** ** Operations on [pessoas]

    An [id] argument is a value of the column's type, PostgreSQL's
    [integer], as every stored id is; for another number the database
    refuses the statement.  The routes below check it. *)

Module PessoaFilters.
Record t : Type := mk {
  nome : option string;
  cpf : option string;
  tipoPessoa : option string
}.
End PessoaFilters.

Import Drizzle.

Definition getPessoas (db : Db) (filters : option PessoaFilters.t) : list Pessoa.t :=
  let query :=
    where_ (select_from (pessoas db)) (fun p => eq_bool (Pessoa.isActive p) true) in
  let query :=
    match truthy_string (opt_chain filters PessoaFilters.nome) with
    | Some nome =>
        where_ query (fun p => like (Some (Pessoa.nome p)) ("%" ++ nome ++ "%")%string)
    | None => query
    end in
  let query :=
    match truthy_string (opt_chain filters PessoaFilters.cpf) with
    | Some cpf => where_ query (fun p => eq_text (Some (Pessoa.cpf p)) cpf)
    | None => query
    end in
  let query :=
    match truthy_string (opt_chain filters PessoaFilters.tipoPessoa) with
    | Some tipoPessoa =>
        where_ query (fun p => eq_text (Some (Pessoa.tipoPessoa p)) tipoPessoa)
    | None => query
    end in
  execute (orderBy_desc query Pessoa.createdAt).

(** In the three operations by id, [id] is a value of the [integer] column
    (see [int4] below for what the database does with any other). *)
Definition getPessoaById (db : Db) (id : Z) : option Pessoa.t :=
  hd_error
    (execute
       (where_ (select_from (pessoas db))
          (fun p => and_ (eq_int (Some (Pessoa.id p)) id)
                         (eq_bool (Pessoa.isActive p) true)))).

Definition getPessoaByCpf (db : Db) (cpf : string) : option Pessoa.t :=
  hd_error
    (execute
       (where_ (select_from (pessoas db))
          (fun p => and_ (eq_text (Some (Pessoa.cpf p)) cpf)
                         (eq_bool (Pessoa.isActive p) true)))).

(** The row [INSERT INTO pessoas ... VALUES (pessoa)] builds: [id] from the
    identity sequence, [is_active] defaulting to [true] when the key is
    absent, both timestamps from [now()]. *)
Definition insert_row (id now : Z) (pessoa : InsertPessoa.t) : Pessoa.t :=
  Pessoa.mk id
    (InsertPessoa.nome pessoa) (InsertPessoa.nomeSocial pessoa)
    (InsertPessoa.cpf pessoa) (InsertPessoa.rg pessoa)
    (InsertPessoa.dataNascimento pessoa) (InsertPessoa.sexo pessoa)
    (InsertPessoa.estadoCivil pessoa) (InsertPessoa.nomePai pessoa)
    (InsertPessoa.nomeMae pessoa) (InsertPessoa.telefone pessoa)
    (InsertPessoa.email pessoa) (InsertPessoa.endereco pessoa)
    (InsertPessoa.municipioId pessoa) (InsertPessoa.cep pessoa)
    (InsertPessoa.tipoPessoa pessoa)
    (match InsertPessoa.isActive pessoa with
     | None => Some true
     | Some v => v
     end)
    now now.

(** [createPessoa]: the sequence value is consumed whether or not the insert
    succeeds.  The constraints followed are the primary key and the unique
    CPF; the payload is taken to pass the others (a [municipioId] that names
    a stored municipality, well-formed dates). *)
Definition createPessoa (db : Db) (now : Z) (pessoa : InsertPessoa.t)
  : Db * Result Pessoa.t :=
  let id := pessoas_id_seq db in
  let db := with_pessoas_id_seq db (id + 1) in
  let novaPessoa := insert_row id now pessoa in
  if id_taken (pessoas db) id then
    (db, Reject (unique_violation "pessoas_pkey"))
  else if cpf_taken (pessoas db) (Pessoa.cpf novaPessoa) then
    (db, Reject (unique_violation "pessoas_cpf_unique"))
  else
    (with_pessoas db (pessoas db ++ [novaPessoa]), Resolve novaPessoa).

(** One key of [.set({...})]: an absent key leaves the column as it is. *)
Definition assign {A : Type} (old : A) (key : option A) : A :=
  match key with Some v => v | None => old end.

(** [.set({ ...pessoa, updatedAt: new Date() })] on one row. *)
Definition set_pessoa (pessoa : PartialInsertPessoa.t) (now : Z) (r : Pessoa.t)
  : Pessoa.t :=
  Pessoa.mk (Pessoa.id r)
    (assign (Pessoa.nome r) (PartialInsertPessoa.nome pessoa))
    (assign (Pessoa.nomeSocial r) (PartialInsertPessoa.nomeSocial pessoa))
    (assign (Pessoa.cpf r) (PartialInsertPessoa.cpf pessoa))
    (assign (Pessoa.rg r) (PartialInsertPessoa.rg pessoa))
    (assign (Pessoa.dataNascimento r) (PartialInsertPessoa.dataNascimento pessoa))
    (assign (Pessoa.sexo r) (PartialInsertPessoa.sexo pessoa))
    (assign (Pessoa.estadoCivil r) (PartialInsertPessoa.estadoCivil pessoa))
    (assign (Pessoa.nomePai r) (PartialInsertPessoa.nomePai pessoa))
    (assign (Pessoa.nomeMae r) (PartialInsertPessoa.nomeMae pessoa))
    (assign (Pessoa.telefone r) (PartialInsertPessoa.telefone pessoa))
    (assign (Pessoa.email r) (PartialInsertPessoa.email pessoa))
    (assign (Pessoa.endereco r) (PartialInsertPessoa.endereco pessoa))
    (assign (Pessoa.municipioId r) (PartialInsertPessoa.municipioId pessoa))
    (assign (Pessoa.cep r) (PartialInsertPessoa.cep pessoa))
    (assign (Pessoa.tipoPessoa r) (PartialInsertPessoa.tipoPessoa pessoa))
    (assign (Pessoa.isActive r) (PartialInsertPessoa.isActive pessoa))
    (Pessoa.createdAt r)
    now.

(** [updatePessoa]: [undefined] ([None]) when [returning()] is empty. *)
Definition updatePessoa (db : Db) (now : Z) (id : Z) (pessoa : PartialInsertPessoa.t)
  : Db * Result (option Pessoa.t) :=
  let '(t', returning) :=
    update_set (pessoas db) (set_pessoa pessoa now)
      (fun p => eq_int (Some (Pessoa.id p)) id) in
  if unique_after_update t' returning then
    (with_pessoas db t', Resolve (hd_error returning))
  else
    (db, Reject (unique_violation "pessoas_cpf_unique")).

(** [.set({ isActive: false, updatedAt: new Date() })] on one row. *)
Definition set_inactive (now : Z) (r : Pessoa.t) : Pessoa.t :=
  set_pessoa
    (PartialInsertPessoa.mk None None None None None None None None None None
       None None None None None (Some (Some false)))
    now r.

Definition deletePessoa (db : Db) (now : Z) (id : Z) : Db :=
  let '(t', _) :=
    update_set (pessoas db) (set_inactive now)
      (fun p => eq_int (Some (Pessoa.id p)) id) in
  with_pessoas db t'.

(** ** Operations on [afastamentos] *)

Module AfastamentoFilters.
Record t : Type := mk {
  pessoaId : option Z;
  ativo : option bool
}.
End AfastamentoFilters.

Definition getAfastamentos (db : Db) (filters : option AfastamentoFilters.t)
  : list Afastamento.t :=
  let query :=
    where_ (select_from (afastamentos db))
      (fun a => eq_bool (Afastamento.isActive a) true) in
  let query :=
    match truthy_number (opt_chain filters AfastamentoFilters.pessoaId) with
    | Some pessoaId =>
        where_ query (fun a => eq_int (Some (Afastamento.pessoaId a)) pessoaId)
    | None => query
    end in
  execute (orderBy_desc query Afastamento.createdAt).

(** ** Dashboard *)

(** [new Date().toISOString().split('T')[0]] as a day number. *)
Definition toISODate (now : Z) : Z := now / 86400000.

Module DashboardStats.
Record t : Type := mk {
  totalServidores : Z;
  afastamentosAtivos : Z;
  diariasPendentes : Z;
  armamentoEmUso : Z
}.
End DashboardStats.

Definition getDashboardStats (db : Db) (now : Z) : DashboardStats.t :=
  let totalServidoresResult :=
    count (where_ (select_from (pessoas db))
             (fun p => and_ (eq_bool (Pessoa.isActive p) true)
                            (eq_text (Some (Pessoa.tipoPessoa p)) "S"))) in
  let hoje := toISODate now in
  let afastamentosAtivosResult :=
    count (where_ (select_from (afastamentos db))
             (fun a =>
                and_ (eq_bool (Afastamento.isActive a) true)
                  (and_ (lte (Some (Afastamento.dataInicio a)) hoje)
                        (Sql.or3 (Sql.is_null (Afastamento.dataFim a))
                                 (gte (Afastamento.dataFim a) hoje))))) in
  let diariasPendentesResult :=
    count (where_ (select_from (diarias db))
             (fun d => and_ (eq_bool (Diaria.isActive d) true)
                            (eq_int (Some (Diaria.statusId d)) 1))) in
  let armamentoEmUsoResult :=
    count (where_ (select_from (armamento db))
             (fun w => and_ (eq_bool (Armamento.isActive w) true)
                            (eq_text (Armamento.situacao w) "EM_USO"))) in
  DashboardStats.mk totalServidoresResult afastamentosAtivosResult
    diariasPendentesResult armamentoEmUsoResult.

(** ** Recent activities

    The two queries select a few columns; the activities read them from the
    full rows. *)

Module Activity.
Record t : Type := mk {
  id : Z;
  tipo : string;
  descricao : string;
  data : Z;
  pessoaNome : option string
}.
End Activity.

(** [x || undefined] on a nullable string. *)
Definition or_undefined (x : option string) : option string := truthy_string x.

Definition pessoa_criada (pessoa : Pessoa.t) : Activity.t :=
  Activity.mk (Pessoa.id pessoa) "pessoa_criada"
    ("Nova pessoa cadastrada: " ++ Pessoa.nome pessoa)%string
    (Pessoa.createdAt pessoa)
    (Some (Pessoa.nome pessoa)).

Definition diaria_criada (diaria : Diaria.t * option Pessoa.t) : Activity.t :=
  Activity.mk (Diaria.id (fst diaria)) "diaria_criada"
    ("Nova diária criada para " ++ Diaria.destino (fst diaria))%string
    (Diaria.createdAt (fst diaria))
    (or_undefined (option_map Pessoa.nome (snd diaria))).

(** [atividades.sort((a, b) => b.data.getTime() - a.data.getTime())]:
    [Array.prototype.sort] is stable. *)
Definition sort_by_data_desc (atividades : list Activity.t) : list Activity.t :=
  sort_desc Activity.data atividades.

Definition getRecentActivities (db : Db) : list Activity.t :=
  let atividades : list Activity.t := [] in
  let pessoasRecentes :=
    execute
      (limit
         (orderBy_desc
            (where_ (select_from (pessoas db))
               (fun p => eq_bool (Pessoa.isActive p) true))
            Pessoa.createdAt)
         3) in
  let atividades := atividades ++ map pessoa_criada pessoasRecentes in
  let diariasRecentes :=
    execute
      (limit
         (orderBy_desc
            (where_
               (select_from
                  (leftJoin (diarias db) (pessoas db)
                     (fun d p => eq_int (Some (Diaria.pessoaId d)) (Pessoa.id p))))
               (fun dp => eq_bool (Diaria.isActive (fst dp)) true))
            (fun dp => Diaria.createdAt (fst dp)))
         2) in
  let atividades := atividades ++ map diaria_criada diariasRecentes in
  sort_by_data_desc atividades.

(** ** [registerRoutes]: [POST /api/pessoas]

    [parsed] is the outcome of [insertPessoaSchema.parse(req.body)]: [None]
    when it throws a [ZodError].  The request has passed
    [isAuthenticated]. *)

Inductive Body : Type :=
  | body_pessoa (p : Pessoa.t)
  | body_message (message : string)
  | body_zod_errors (message : string).

Record Response : Type := mkResponse {
  status : Z;
  json : Body
}.

Definition post_api_pessoas (db : Db) (now : Z) (parsed : option InsertPessoa.t)
  : Db * Response :=
  match parsed with
  | None => (db, mkResponse 400 (body_zod_errors "Dados inválidos"))
  | Some pessoaData =>
      match getPessoaByCpf db (InsertPessoa.cpf pessoaData) with
      | Some pessoaExistente =>
          (db, mkResponse 400 (body_message "CPF já cadastrado no sistema"))
      | None =>
          match createPessoa db now pessoaData with
          | (db', Resolve novaPessoa) => (db', mkResponse 201 (body_pessoa novaPessoa))
          | (db', Reject _) => (db', mkResponse 500 (body_message "Falha ao cadastrar pessoa"))
          end
      end
  end.

(** ** Operations on [diarias] and [armamento]

    The [Date] filters are valid dates, given in milliseconds; a [Date]
    object is truthy whatever its value. *)

Module DiariaFilters.
Record t : Type := mk {
  pessoaId : option Z;
  statusId : option Z;
  dataInicio : option Z;
  dataFim : option Z
}.
End DiariaFilters.

Definition getDiarias (db : Db) (filters : option DiariaFilters.t) : list Diaria.t :=
  let query :=
    where_ (select_from (diarias db)) (fun d => eq_bool (Diaria.isActive d) true) in
  let query :=
    match truthy_number (opt_chain filters DiariaFilters.pessoaId) with
    | Some pessoaId => where_ query (fun d => eq_int (Some (Diaria.pessoaId d)) pessoaId)
    | None => query
    end in
  let query :=
    match truthy_number (opt_chain filters DiariaFilters.statusId) with
    | Some statusId => where_ query (fun d => eq_int (Some (Diaria.statusId d)) statusId)
    | None => query
    end in
  let query :=
    match opt_chain filters DiariaFilters.dataInicio with
    | Some dataInicio =>
        where_ query (fun d => gte (Some (Diaria.dataInicio d)) (toISODate dataInicio))
    | None => query
    end in
  let query :=
    match opt_chain filters DiariaFilters.dataFim with
    | Some dataFim =>
        where_ query (fun d => lte (Some (Diaria.dataFim d)) (toISODate dataFim))
    | None => query
    end in
  execute (orderBy_desc query Diaria.createdAt).

Module ArmamentoFilters.
Record t : Type := mk {
  situacao : option string;
  tipoArmaId : option Z
}.
End ArmamentoFilters.

Definition getArmamentos (db : Db) (filters : option ArmamentoFilters.t)
  : list Armamento.t :=
  let query :=
    where_ (select_from (armamento db))
      (fun w => eq_bool (Armamento.isActive w) true) in
  let query :=
    match truthy_string (opt_chain filters ArmamentoFilters.situacao) with
    | Some situacao => where_ query (fun w => eq_text (Armamento.situacao w) situacao)
    | None => query
    end in
  let query :=
    match truthy_number (opt_chain filters ArmamentoFilters.tipoArmaId) with
    | Some tipoArmaId =>
        where_ query (fun w => eq_int (Some (Armamento.tipoArmaId w)) tipoArmaId)
    | None => query
    end in
  execute (orderBy_desc query Armamento.createdAt).

(** ** [registerRoutes]: the other routes of [/api/pessoas]

    [id] is [parseInt(req.params.id)]: a number, or [NaN] ([None]).  The
    column [pessoas.id] is a PostgreSQL [integer]; the database refuses a
    parameter that is [NaN] or outside that type's range, the storage call
    then rejects and the handler answers 500.  The query parameters are
    strings or absent.  [res.json(undefined)] answers with an empty body
    ([json_undefined]), [res.status(204).send()] with none. *)

Inductive Json : Type :=
  | json_pessoa (p : Pessoa.t)
  | json_pessoas (l : list Pessoa.t)
  | json_undefined
  | json_message (message : string)
  | json_zod_errors (message : string)
  | no_body.

Record Reply : Type := mkReply {
  reply_status : Z;
  reply_body : Json
}.

(** The range of PostgreSQL's [integer]. *)
Definition int4 (n : Z) : bool :=
  (-2147483648 <=? n) && (n <=? 2147483647).

(** The [id] the database accepts as a parameter, if it does. *)
Definition accepted_id (id : option Z) : option Z :=
  match id with
  | Some n => if int4 n then Some n else None
  | None => None
  end.

Definition get_api_pessoas (db : Db) (nome cpf tipoPessoa : option string) : Reply :=
  let pessoas := getPessoas db (Some (PessoaFilters.mk nome cpf tipoPessoa)) in
  mkReply 200 (json_pessoas pessoas).

Definition get_api_pessoas_id (db : Db) (id : option Z) : Reply :=
  match accepted_id id with
  | Some id =>
      match getPessoaById db id with
      | None => mkReply 404 (json_message "Pessoa não encontrada")
      | Some pessoa => mkReply 200 (json_pessoa pessoa)
      end
  | None => mkReply 500 (json_message "Falha ao carregar dados da pessoa")
  end.

(** [parsed] is the outcome of [insertPessoaSchema.partial().parse(req.body)],
    [None] when it throws a [ZodError]. *)
Definition put_api_pessoas_id
    (db : Db) (now : Z) (id : option Z) (parsed : option PartialInsertPessoa.t)
  : Db * Reply :=
  match parsed with
  | None => (db, mkReply 400 (json_zod_errors "Dados inválidos"))
  | Some pessoaData =>
      match accepted_id id with
      | Some id =>
          match updatePessoa db now id pessoaData with
          | (db', Resolve (Some pessoaAtualizada)) =>
              (db', mkReply 200 (json_pessoa pessoaAtualizada))
          | (db', Resolve None) => (db', mkReply 200 json_undefined)
          | (db', Reject _) =>
              (db', mkReply 500 (json_message "Falha ao atualizar dados da pessoa"))
          end
      | None => (db, mkReply 500 (json_message "Falha ao atualizar dados da pessoa"))
      end
  end.

Definition delete_api_pessoas_id (db : Db) (now : Z) (id : option Z) : Db * Reply :=
  match accepted_id id with
  | Some id =>
      let db' := deletePessoa db now id in
      (db', mkReply 204 no_body)
  | None => (db, mkReply 500 (json_message "Falha ao excluir pessoa"))
  end.

(** ** [client/src]: the CPF masks and the sidebar

    Strings are sequences of characters; of a character only whether it is
    one of [0] to [9] ([\d]) matters.  [replace] with a regular expression
    without the [g] flag rewrites the leftmost match. *)

Definition is_digit (c : ascii) : bool :=
  (N.leb 48 (N_of_ascii c) && N.leb (N_of_ascii c) 57)%bool.

(** The next [n] characters exist and are digits: [\d{n}] here. *)
Fixpoint digits_prefix (n : nat) (s : string) : bool :=
  match n with
  | O => true
  | S n' =>
      match s with
      | EmptyString => false
      | String c s' => is_digit c && digits_prefix n' s'
      end
  end.

Fixpoint all_digits (s : string) : bool :=
  match s with
  | EmptyString => true
  | String c s' => is_digit c && all_digits s'
  end.

Fixpoint take (n : nat) (s : string) : string :=
  match n, s with
  | S n', String c s' => String c (take n' s')
  | _, _ => EmptyString
  end.

Fixpoint drop (n : nat) (s : string) : string :=
  match n, s with
  | S n', String _ s' => drop n' s'
  | _, _ => s
  end.

(** [.replace(/\D/g, "")]. *)
Fixpoint strip_non_digits (s : string) : string :=
  match s with
  | EmptyString => EmptyString
  | String c s' =>
      if is_digit c then String c (strip_non_digits s') else strip_non_digits s'
  end.

Module ServidoresList.

(** [cpf.replace(/(\d{3})(\d{3})(\d{3})(\d{2})/, "$1.$2.$3-$4")]. *)
Fixpoint formatCPF (cpf : string) : string :=
  match cpf with
  | EmptyString => EmptyString
  | String c rest =>
      if digits_prefix 11 cpf then
        (take 3 cpf ++ "." ++ take 3 (drop 3 cpf) ++ "." ++ take 3 (drop 6 cpf)
         ++ "-" ++ take 2 (drop 9 cpf) ++ drop 11 cpf)%string
      else String c (formatCPF rest)
  end.

End ServidoresList.

Module ServidorForm.

(** [.replace(/(\d{3})(\d)/, "$1" + sep + "$2")], and the same for
    [/(\d{3})(\d{1,2})/], whose second group is put back as it was. *)
Fixpoint replace_3_1 (sep : string) (s : string) : string :=
  match s with
  | EmptyString => EmptyString
  | String c rest =>
      if digits_prefix 4 s then (take 3 s ++ sep ++ drop 3 s)%string
      else String c (replace_3_1 sep rest)
  end.

(** [.replace(/(-\d{2})\d+?$/, "$1")]: the match runs to the end of the
    string. *)
Fixpoint replace_tail (s : string) : string :=
  match s with
  | EmptyString => EmptyString
  | String c rest =>
      if Ascii.eqb c "-" && digits_prefix 2 rest
         && negb (String.eqb (drop 2 rest) "") && all_digits (drop 2 rest)
      then String c (take 2 rest)
      else String c (replace_tail rest)
  end.

Definition formatCPF (value : string) : string :=
  replace_tail
    (replace_3_1 "-"
       (replace_3_1 "."
          (replace_3_1 "."
             (strip_non_digits value)))).

(** The value the field keeps on change:
    [formatCPF(e.target.value).replace(/\D/g, "")]. *)
Definition onChange_value (typed : string) : string :=
  strip_non_digits (formatCPF typed).

End ServidorForm.

Module Sidebar.

Definition toggleExpanded (itemId : string) (prev : list string) : list string :=
  if existsb (String.eqb itemId) prev
  then filter (fun id => negb (String.eqb id itemId)) prev
  else prev ++ [itemId].

End Sidebar.

(** * Vocabulary of the statements

    The predicates, tests and sample databases the properties are stated
    with. *)

(** Descending order of the keys. *)
Definition desc {R : Type} (key : R -> Z) (a b : R) : Prop := key b <= key a.


(** The soft-delete condition [eq(pessoas.isActive, true)] on a row. *)
Definition is_active (p : Pessoa.t) : bool :=
  Sql.holds (eq_bool (Pessoa.isActive p) true).

(** The condition [getPessoas] ends up running: the one of the last filter
    that is set, and the soft-delete condition only when none is. *)
Definition final_where (filters : option PessoaFilters.t) (p : Pessoa.t) : Sql.tri :=
  match truthy_string (opt_chain filters PessoaFilters.tipoPessoa) with
  | Some tipoPessoa => eq_text (Some (Pessoa.tipoPessoa p)) tipoPessoa
  | None =>
      match truthy_string (opt_chain filters PessoaFilters.cpf) with
      | Some cpf => eq_text (Some (Pessoa.cpf p)) cpf
      | None =>
          match truthy_string (opt_chain filters PessoaFilters.nome) with
          | Some nome => like (Some (Pessoa.nome p)) ("%" ++ nome ++ "%")%string
          | None => eq_bool (Pessoa.isActive p) true
          end
      end
  end.

(** The database before any request. *)
Definition db_empty : Db := mkDb [] 1 [] [] [].

(** A payload of type ['S'] without optional keys. *)
Definition servidor (nome cpf : string) : InsertPessoa.t :=
  InsertPessoa.mk nome None cpf None 7000 "F" None None None None None None None
    None "S" None.

(** A run of the API: from the empty database, [POST] Ana, [POST] Bruno,
    [POST] Carla, then [DELETE] Carla. *)
Definition db_three : Db :=
  let db := fst (createPessoa db_empty 1000 (servidor "Ana" "11111111111")) in
  let db := fst (createPessoa db 2000 (servidor "Bruno" "22222222222")) in
  let db := fst (createPessoa db 3000 (servidor "Carla" "33333333333")) in
  deletePessoa db 4000 3.

(** The rows of [db_three]. *)
Definition row_ana : Pessoa.t := insert_row 1 1000 (servidor "Ana" "11111111111").
Definition row_bruno : Pessoa.t := insert_row 2 2000 (servidor "Bruno" "22222222222").
Definition row_carla : Pessoa.t :=
  set_inactive 4000 (insert_row 3 3000 (servidor "Carla" "33333333333")).

(** The conditions of [getPessoaByCpf] and [getPessoaById] as tests. *)
Definition by_cpf (cpf : string) (p : Pessoa.t) : bool :=
  String.eqb (Pessoa.cpf p) cpf && is_active p.

Definition by_id (id : Z) (p : Pessoa.t) : bool :=
  (Pessoa.id p =? id) && is_active p.

(** The key constraints of [pessoas]: no two rows with one [id] or one
    [cpf], and the identity sequence ahead of every stored [id]. *)
Definition wf (db : Db) : Prop :=
  NoDup (map Pessoa.id (pessoas db)) /\
  NoDup (map Pessoa.cpf (pessoas db)) /\
  Forall (fun p => Pessoa.id p < pessoas_id_seq db) (pessoas db).

(** A decision procedure for [wf], to run it on concrete databases. *)
Fixpoint distinct {A : Type} (eqb : A -> A -> bool) (l : list A) : bool :=
  match l with
  | [] => true
  | x :: l' => negb (existsb (eqb x) l') && distinct eqb l'
  end.

Definition wf_check (db : Db) : bool :=
  distinct Z.eqb (map Pessoa.id (pessoas db))
  && distinct String.eqb (map Pessoa.cpf (pessoas db))
  && forallb (fun p => Pessoa.id p <? pessoas_id_seq db) (pessoas db).

(** The number of rows that pass a test. *)
Definition count_rows {A : Type} (P : A -> bool) (l : list A) : Z :=
  Z.of_nat (length (filter P l)).

(** The four populations, read off the columns. *)
Definition servidor_ativo (p : Pessoa.t) : Prop :=
  Pessoa.isActive p = Some true /\ Pessoa.tipoPessoa p = "S"%string.

Definition afastamento_vigente (hoje : Z) (a : Afastamento.t) : Prop :=
  Afastamento.isActive a = Some true
  /\ Afastamento.dataInicio a <= hoje
  /\ (Afastamento.dataFim a = None
      \/ exists fim, Afastamento.dataFim a = Some fim /\ hoje <= fim).

Definition diaria_pendente (d : Diaria.t) : Prop :=
  Diaria.isActive d = Some true /\ Diaria.statusId d = 1.

Definition arma_em_uso (w : Armamento.t) : Prop :=
  Armamento.isActive w = Some true /\ Armamento.situacao w = Some "EM_USO"%string.

(** Their tests. *)
Definition servidor_ativo_b (p : Pessoa.t) : bool :=
  match Pessoa.isActive p with
  | Some true => String.eqb (Pessoa.tipoPessoa p) "S"
  | _ => false
  end.

Definition afastamento_vigente_b (hoje : Z) (a : Afastamento.t) : bool :=
  match Afastamento.isActive a with
  | Some true =>
      (Afastamento.dataInicio a <=? hoje)
      && match Afastamento.dataFim a with
         | None => true
         | Some fim => hoje <=? fim
         end
  | _ => false
  end.

Definition diaria_pendente_b (d : Diaria.t) : bool :=
  match Diaria.isActive d with
  | Some true => Diaria.statusId d =? 1
  | _ => false
  end.

Definition arma_em_uso_b (w : Armamento.t) : bool :=
  match Armamento.isActive w, Armamento.situacao w with
  | Some true, Some s => String.eqb s "EM_USO"
  | _, _ => false
  end.

(** Three active servidores and two active terceirizados. *)
Definition db_fixture : Db :=
  let t (nome cpf : string) : InsertPessoa.t :=
    InsertPessoa.mk nome None cpf None 7000 "M" None None None None None None
      None None "T" None in
  mkDb [insert_row 1 1000 (servidor "Ana" "11111111111");
        insert_row 2 2000 (t "Tiago" "22222222222");
        insert_row 3 3000 (servidor "Bia" "33333333333");
        insert_row 4 4000 (servidor "Caio" "44444444444");
        insert_row 5 5000 (t "Taís" "55555555555")]
       6 [] [] [].

(** The condition [eq(pessoas.id, id)] of [updatePessoa] and [deletePessoa]. *)
Definition has_id (id : Z) (p : Pessoa.t) : Sql.tri :=
  eq_int (Some (Pessoa.id p)) id.

(** The patches [{ nome }] and [{ isActive }]. *)
Definition patch_nome (nome : string) : PartialInsertPessoa.t :=
  PartialInsertPessoa.mk (Some nome) None None None None None None None None
    None None None None None None None.

Definition patch_isActive (v : bool) : PartialInsertPessoa.t :=
  PartialInsertPessoa.mk None None None None None None None None None None
    None None None None None (Some (Some v)).


(** The soft-delete condition [eq(diarias.isActive, true)] on a row. *)
Definition diaria_is_active (d : Diaria.t) : bool :=
  Sql.holds (eq_bool (Diaria.isActive d) true).

(** The joined rows of the active per-diem requests. *)
Definition diarias_ativas_joined (db : Db) : list (Diaria.t * option Pessoa.t) :=
  filter (fun dp => diaria_is_active (fst dp))
    (leftJoin (diarias db) (pessoas db)
       (fun d p => eq_int (Some (Diaria.pessoaId d)) (Pessoa.id p))).

(** [db_three] after [POST] Davi, with four per-diem requests, the last one
    soft-deleted. *)
Definition db_feed : Db :=
  let db := fst (createPessoa db_three 3500 (servidor "Davi" "44444444444")) in
  let diaria (id pessoaId : Z) (destino : string) (isActive : bool) (createdAt : Z) :=
    Diaria.mk id pessoaId 1 destino "Missão" 100 102 None None None None None
      (Some isActive) createdAt createdAt in
  mkDb (pessoas db) (pessoas_id_seq db) []
    [diaria 1 1 "Recife" true 1500;
     diaria 2 2 "Natal" true 2500;
     diaria 3 3 "Belém" true 9000;
     diaria 4 1 "Manaus" false 9500]
    [].

(** No stamp of [pessoas] is ahead of the clock. *)
Definition stamps_le (now : Z) (db : Db) : Prop :=
  Forall (fun p => Pessoa.createdAt p <= now /\ Pessoa.updatedAt p <= now)
    (pessoas db).

(** The characters LIKE reads as part of the pattern, and the strings free
    of them. *)
Definition wildcard (c : ascii) : bool :=
  Ascii.eqb c "%" || Ascii.eqb c "_" || Ascii.eqb c "\".

Fixpoint literal (n : string) : bool :=
  match n with
  | EmptyString => true
  | String c n' => negb (wildcard c) && literal n'
  end.

(** The condition [getDiarias] ends up running: the one of the last filter
    that is set, and the soft-delete condition only when none is. *)
Definition diarias_final_where (filters : option DiariaFilters.t) (d : Diaria.t)
  : Sql.tri :=
  match opt_chain filters DiariaFilters.dataFim with
  | Some dataFim => lte (Some (Diaria.dataFim d)) (toISODate dataFim)
  | None =>
      match opt_chain filters DiariaFilters.dataInicio with
      | Some dataInicio => gte (Some (Diaria.dataInicio d)) (toISODate dataInicio)
      | None =>
          match truthy_number (opt_chain filters DiariaFilters.statusId) with
          | Some statusId => eq_int (Some (Diaria.statusId d)) statusId
          | None =>
              match truthy_number (opt_chain filters DiariaFilters.pessoaId) with
              | Some pessoaId => eq_int (Some (Diaria.pessoaId d)) pessoaId
              | None => eq_bool (Diaria.isActive d) true
              end
          end
      end
  end.

(** No row of [pessoas] was updated before it was created. *)
Definition stamps_ordered (db : Db) : Prop :=
  Forall (fun p => Pessoa.createdAt p <= Pessoa.updatedAt p) (pessoas db).

(** The row a soft delete at [now] leaves of [r]: [isActive] and [updatedAt]
    written, every other column as it was. *)
Definition soft_deleted_row (now : Z) (r : Pessoa.t) : Pessoa.t :=
  Pessoa.mk (Pessoa.id r) (Pessoa.nome r) (Pessoa.nomeSocial r) (Pessoa.cpf r)
    (Pessoa.rg r) (Pessoa.dataNascimento r) (Pessoa.sexo r)
    (Pessoa.estadoCivil r) (Pessoa.nomePai r) (Pessoa.nomeMae r)
    (Pessoa.telefone r) (Pessoa.email r) (Pessoa.endereco r)
    (Pessoa.municipioId r) (Pessoa.cep r) (Pessoa.tipoPessoa r)
    (Some false) (Pessoa.createdAt r) now.




(** 1 June 2024, 13:00 UTC, and the day number of 1 June 2024. *)
Definition dia_2024_06_01 : Z := 19875.
Definition now_2024_06_01 : Z := 19875 * 86400000 + 13 * 3600000.

(** The persons of [db_fixture] with four absences (open since 1 January
    2024; ended on 10 January 2024; starting on 26 June 2024; open but
    soft-deleted), three per-diem requests (pending; approved; pending but
    soft-deleted) and four weapons (in use; available; in use but
    soft-deleted; without situation). *)
Definition db_dashboard : Db :=
  let afastamento (id ini : Z) (fim : option Z) (isActive : bool) :=
    Afastamento.mk id 1 1 ini fim None None None (Some isActive) 1000 1000 in
  let diaria (id statusId : Z) (isActive : bool) :=
    Diaria.mk id 1 statusId "Recife" "Missão" 19800 19802 None None None None None
      (Some isActive) 1000 1000 in
  let arma (id : Z) (serie : string) (situacao : option string) (isActive : bool) :=
    Armamento.mk id serie 1 None None None situacao None (Some isActive) 1000 1000 in
  mkDb (pessoas db_fixture) 6
    [afastamento 1 19723 None true;
     afastamento 2 19723 (Some 19732) true;
     afastamento 3 19900 None true;
     afastamento 4 19723 None false]
    [diaria 1 1 true; diaria 2 2 true; diaria 3 1 false]
    [arma 1 "A1" (Some "EM_USO"%string) true;
     arma 2 "A2" (Some "DISPONIVEL"%string) true;
     arma 3 "A3" (Some "EM_USO"%string) false;
     arma 4 "A4" None true].


(** * Properties *)

(** ** The descending sort *)

Section SortDesc.
Context {R : Type} (key : R -> Z).

Lemma insert_desc_perm (x : R) (l : list R) :
  Permutation (insert_desc key x l) (x :: l).
Proof.
  induction l as [|y l IH]; simpl.
  - apply Permutation_refl.
  - destruct (key y <=? key x).
    + apply Permutation_refl.
    + rewrite IH. apply perm_swap.
Qed.

Lemma sort_desc_perm (l : list R) : Permutation (sort_desc key l) l.
Proof.
  induction l as [|x l IH]; simpl.
  - constructor.
  - rewrite insert_desc_perm. now constructor.
Qed.

Lemma sort_desc_length (l : list R) : length (sort_desc key l) = length l.
Proof. apply Permutation_length, sort_desc_perm. Qed.

Lemma sort_desc_In (l : list R) (x : R) : In x (sort_desc key l) <-> In x l.
Proof.
  split; apply Permutation_in;
    [apply sort_desc_perm | apply Permutation_sym, sort_desc_perm].
Qed.

Lemma insert_desc_sorted (x : R) (l : list R) :
  StronglySorted (desc key) l -> StronglySorted (desc key) (insert_desc key x l).
Proof.
  induction 1 as [|y l Hs IH Hy]; simpl.
  - repeat constructor.
  - destruct (key y <=? key x) eqn:E.
    + apply Z.leb_le in E. constructor.
      * now constructor.
      * constructor; [exact E|].
        rewrite Forall_forall in Hy |- *. intros z Hz.
        specialize (Hy z Hz). unfold desc in *. lia.
    + apply Z.leb_gt in E. constructor; [exact IH|].
      rewrite Forall_forall in Hy |- *. intros z Hz.
      apply (Permutation_in _ (insert_desc_perm x l)) in Hz.
      destruct Hz as [<-|Hz]; [unfold desc; lia | now apply Hy].
Qed.

Lemma sort_desc_sorted (l : list R) : StronglySorted (desc key) (sort_desc key l).
Proof.
  induction l as [|x l IH]; simpl.
  - constructor.
  - now apply insert_desc_sorted.
Qed.



End SortDesc.

(** ** [getPessoas] *)

Lemma is_active_true (p : Pessoa.t) :
  is_active p = true <-> Pessoa.isActive p = Some true.
Proof.
  unfold is_active, eq_bool, Sql.cmp, Sql.holds.
  destruct (Pessoa.isActive p) as [[|]|]; simpl; split; congruence.
Qed.

Lemma getPessoas_final_where (db : Db) (filters : option PessoaFilters.t) :
  getPessoas db filters =
  sort_desc Pessoa.createdAt
    (filter (fun p => Sql.holds (final_where filters p)) (pessoas db)).
Proof.
  unfold getPessoas, final_where.
  destruct (truthy_string (opt_chain filters PessoaFilters.tipoPessoa));
    destruct (truthy_string (opt_chain filters PessoaFilters.cpf));
    destruct (truthy_string (opt_chain filters PessoaFilters.nome));
    reflexivity.
Qed.

Lemma getPessoas_sorted (db : Db) (filters : option PessoaFilters.t) :
  StronglySorted (desc Pessoa.createdAt) (getPessoas db filters).
Proof. rewrite getPessoas_final_where. apply sort_desc_sorted. Qed.

(** Without a filter the list is the active persons, newest first. *)
Lemma getPessoas_unfiltered (db : Db) :
  getPessoas db None = sort_desc Pessoa.createdAt (filter is_active (pessoas db)).
Proof. reflexivity. Qed.

Lemma getPessoas_unfiltered_active (db : Db) (p : Pessoa.t) :
  In p (getPessoas db None) -> Pessoa.isActive p = Some true.
Proof.
  rewrite getPessoas_unfiltered, sort_desc_In, filter_In.
  intros [_ H]. now apply is_active_true.
Qed.


(** Without a filter, [db_three] lists its two active persons, newest
    first. *)
Example getPessoas_db_three : getPessoas db_three None = [row_bruno; row_ana].
Proof. reflexivity. Qed.

(** C1 (code at the failing input).  After Carla is soft-deleted,
    [getPessoas({ nome: "Carla" })] still returns her row, whose [isActive]
    is [false]: the [where] of the name filter has replaced the soft-delete
    condition. *)
Theorem getPessoas_nome_returns_soft_deleted :
  getPessoas db_three (Some (PessoaFilters.mk (Some "Carla") None None))
    = [row_carla]
  /\ Pessoa.isActive row_carla = Some false
  /\ getPessoaById db_three 3 = None.
Proof. repeat split; reflexivity. Qed.

(** C4 (code at the failing input).  With the filters
    [{ nome: "Ana", tipoPessoa: "S" }] the query keeps only the condition on
    [tipoPessoa]: it returns Bruno, whose name does not contain "Ana", and
    the soft-deleted Carla, where the conjunction of the conditions keeps
    Ana alone. *)
Theorem getPessoas_filters_not_conjoined :
  getPessoas db_three (Some (PessoaFilters.mk (Some "Ana") None (Some "S")))
    = [row_carla; row_bruno; row_ana]
  /\ filter (fun p => is_active p
                      && Sql.like_match "%Ana%" (Pessoa.nome p)
                      && String.eqb (Pessoa.tipoPessoa p) "S")
       (pessoas db_three) = [row_ana].
Proof. split; reflexivity. Qed.

(** ** Conditions and lookups *)

Lemma holds_and3 (a b : Sql.tri) :
  Sql.holds (Sql.and3 a b) = Sql.holds a && Sql.holds b.
Proof. destruct a as [[|]|], b as [[|]|]; reflexivity. Qed.

Lemma holds_eq_int (x v : Z) : Sql.holds (eq_int (Some x) v) = (x =? v).
Proof. unfold eq_int; simpl. now destruct (x =? v). Qed.

Lemma holds_eq_text (x v : string) :
  Sql.holds (eq_text (Some x) v) = String.eqb x v.
Proof. unfold eq_text; simpl. now destruct (String.eqb x v). Qed.

Lemma hd_error_filter_None {A : Type} (f : A -> bool) (l : list A) :
  hd_error (filter f l) = None <-> forall x, In x l -> f x = false.
Proof.
  induction l as [|a l IH]; simpl.
  - split; [intros _ x [] | reflexivity].
  - destruct (f a) eqn:E; simpl.
    + split; [discriminate|]. intros H. specialize (H a (or_introl eq_refl)).
      congruence.
    + rewrite IH. split.
      * intros H x [<-|Hx]; auto.
      * intros H x Hx. apply H. now right.
Qed.

Lemma hd_error_filter_Some {A : Type} (f : A -> bool) (l : list A) (x : A) :
  hd_error (filter f l) = Some x -> In x l /\ f x = true.
Proof.
  intros H. apply filter_In.
  destruct (filter f l) as [|y l'] eqn:E; simpl in H; [discriminate|].
  injection H as ->. now left.
Qed.

Lemma getPessoaByCpf_filter (db : Db) (cpf : string) :
  getPessoaByCpf db cpf = hd_error (filter (by_cpf cpf) (pessoas db)).
Proof.
  unfold getPessoaByCpf, execute, where_, select_from, by_cpf, is_active, and_.
  cbn [config_where config_orderBy config_limit from].
  f_equal. apply filter_ext.
  intros p. now rewrite holds_and3, holds_eq_text.
Qed.

Lemma getPessoaById_filter (db : Db) (id : Z) :
  getPessoaById db id = hd_error (filter (by_id id) (pessoas db)).
Proof.
  unfold getPessoaById, execute, where_, select_from, by_id, is_active, and_.
  cbn [config_where config_orderBy config_limit from].
  f_equal. apply filter_ext.
  intros p. now rewrite holds_and3, holds_eq_int.
Qed.

Lemma cpf_taken_true (t : list Pessoa.t) (c : string) :
  cpf_taken t c = true <-> exists q, In q t /\ Pessoa.cpf q = c.
Proof.
  unfold cpf_taken. rewrite existsb_exists.
  split; intros [q [Hq E]]; exists q; split; auto; now apply String.eqb_eq.
Qed.

Lemma cpf_taken_false (t : list Pessoa.t) (c : string) :
  cpf_taken t c = false <-> forall q, In q t -> Pessoa.cpf q <> c.
Proof.
  split.
  - intros H q Hq E.
    assert (cpf_taken t c = true) by (apply cpf_taken_true; eauto). congruence.
  - intros H. destruct (cpf_taken t c) eqn:E; [|reflexivity].
    apply cpf_taken_true in E as [q [Hq E]]. now destruct (H q Hq).
Qed.

Lemma id_taken_false (t : list Pessoa.t) (i : Z) :
  id_taken t i = false <-> forall q, In q t -> Pessoa.id q <> i.
Proof.
  unfold id_taken. split.
  - intros H q Hq E.
    assert (existsb (fun p => Pessoa.id p =? i) t = true).
    { apply existsb_exists. exists q. split; [exact Hq | now apply Z.eqb_eq]. }
    congruence.
  - intros H. destruct (existsb _ t) eqn:E; [|reflexivity].
    apply existsb_exists in E as [q [Hq E]]. apply Z.eqb_eq in E.
    now destruct (H q Hq).
Qed.

Lemma getPessoaByCpf_None (db : Db) (c : string) :
  getPessoaByCpf db c = None <->
  forall q, In q (pessoas db) -> Pessoa.cpf q = c -> Pessoa.isActive q <> Some true.
Proof.
  rewrite getPessoaByCpf_filter, hd_error_filter_None. unfold by_cpf.
  split; intros H q Hq.
  - intros E A. specialize (H q Hq).
    apply String.eqb_eq in E. apply is_active_true in A.
    rewrite E, A in H. discriminate.
  - apply andb_false_iff.
    destruct (String.eqb (Pessoa.cpf q) c) eqn:E; [right | now left].
    apply String.eqb_eq in E. destruct (is_active q) eqn:A; [|reflexivity].
    apply is_active_true in A. now destruct (H q Hq E).
Qed.

(** ** The integrity constraints as an invariant *)

Lemma wf_seq_fresh (db : Db) : wf db -> id_taken (pessoas db) (pessoas_id_seq db) = false.
Proof.
  intros (_ & _ & H). apply id_taken_false. intros q Hq.
  rewrite Forall_forall in H. specialize (H q Hq). lia.
Qed.

Lemma with_pessoas_same (db : Db) : with_pessoas db (pessoas db) = db.
Proof. now destruct db. Qed.

Lemma distinct_NoDup {A : Type} (eqb : A -> A -> bool) (l : list A) :
  (forall x y, eqb x y = true <-> x = y) ->
  distinct eqb l = true -> NoDup l.
Proof.
  intros Heq. induction l as [|x l IH]; simpl; intros H; constructor.
  - apply andb_prop in H as [H _]. intros Hin.
    assert (existsb (eqb x) l = true).
    { apply existsb_exists. exists x. split; [exact Hin | now apply Heq]. }
    rewrite H0 in H. discriminate.
  - apply IH. now apply andb_prop in H.
Qed.

Lemma wf_check_sound (db : Db) : wf_check db = true -> wf db.
Proof.
  unfold wf_check, wf. intros H.
  apply andb_prop in H as [H H3]. apply andb_prop in H as [H1 H2].
  repeat split.
  - eapply distinct_NoDup; [apply Z.eqb_eq | exact H1].
  - eapply distinct_NoDup; [apply String.eqb_eq | exact H2].
  - apply Forall_forall. intros p Hp.
    rewrite forallb_forall in H3. specialize (H3 p Hp). lia.
Qed.

Lemma filter_none {A : Type} (f : A -> bool) (l : list A) :
  (forall x, In x l -> f x = false) -> filter f l = [].
Proof.
  induction l as [|a l IH]; simpl; intros H; [reflexivity|].
  rewrite (H a (or_introl eq_refl)). apply IH. intros x Hx. apply H. now right.
Qed.

(** ** [createPessoa] and [POST /api/pessoas] *)

Lemma createPessoa_resolves (db : Db) (now : Z) (pessoa : InsertPessoa.t) :
  id_taken (pessoas db) (pessoas_id_seq db) = false ->
  cpf_taken (pessoas db) (InsertPessoa.cpf pessoa) = false ->
  createPessoa db now pessoa =
  (with_pessoas (with_pessoas_id_seq db (pessoas_id_seq db + 1))
     (pessoas db ++ [insert_row (pessoas_id_seq db) now pessoa]),
   Resolve (insert_row (pessoas_id_seq db) now pessoa)).
Proof.
  intros Hid Hcpf. unfold createPessoa. cbn [with_pessoas_id_seq pessoas].
  rewrite Hid. cbn [insert_row Pessoa.cpf]. now rewrite Hcpf.
Qed.

Lemma createPessoa_rejects (db : Db) (now : Z) (pessoa : InsertPessoa.t) :
  cpf_taken (pessoas db) (InsertPessoa.cpf pessoa) = true ->
  pessoas (fst (createPessoa db now pessoa)) = pessoas db /\
  exists e, snd (createPessoa db now pessoa) = Reject e.
Proof.
  intros Hcpf. unfold createPessoa. cbn [with_pessoas_id_seq pessoas].
  destruct (id_taken (pessoas db) (pessoas_id_seq db)).
  - split; [reflexivity | eexists; reflexivity].
  - cbn [insert_row Pessoa.cpf]. rewrite Hcpf.
    split; [reflexivity | eexists; reflexivity].
Qed.

(** The scenario of two [POST]s with one CPF on the empty database: 201,
    then 400, and one person listed. *)
Example post_api_pessoas_twice :
  let pessoaData := servidor "Ana" "12345678901" in
  let first := post_api_pessoas db_empty 1000 (Some pessoaData) in
  let second := post_api_pessoas (fst first) 2000 (Some pessoaData) in
  status (snd first) = 201
  /\ snd second = mkResponse 400 (body_message "CPF já cadastrado no sistema")
  /\ fst second = fst first
  /\ length (getPessoas (fst second) None) = 1%nat.
Proof. repeat split. Qed.

(** C2 (claim as stated, refuted).  Carla is soft-deleted in [db_three]; a
    [POST] with her CPF passes the pre-check, which looks at active persons
    only, and is answered 500. *)
Lemma post_api_pessoas_soft_deleted_cpf_not_400 :
  ~ (forall db now pessoaData,
       cpf_taken (pessoas db) (InsertPessoa.cpf pessoaData) = true ->
       status (snd (post_api_pessoas db now (Some pessoaData))) = 400
       /\ pessoas (fst (post_api_pessoas db now (Some pessoaData))) = pessoas db).
Proof.
  intros H.
  destruct (H db_three 5000 (servidor "Carla" "33333333333") eq_refl) as [H400 _].
  vm_compute in H400. discriminate.
Qed.

(** C2 (amended).  When some stored person has the CPF of the request, the
    [POST] stores nothing.  If an active person holds the CPF the answer is
    400 with the duplicate-CPF message and the database is untouched; if
    only soft-deleted persons hold it, the insert is attempted, the unique
    constraint rejects it and the answer is 500. *)
Theorem post_api_pessoas_duplicate_cpf
    (db : Db) (now : Z) (pessoaData : InsertPessoa.t) :
  cpf_taken (pessoas db) (InsertPessoa.cpf pessoaData) = true ->
  pessoas (fst (post_api_pessoas db now (Some pessoaData))) = pessoas db
  /\ ((exists q, In q (pessoas db)
                 /\ Pessoa.cpf q = InsertPessoa.cpf pessoaData
                 /\ Pessoa.isActive q = Some true) ->
      post_api_pessoas db now (Some pessoaData) =
      (db, mkResponse 400 (body_message "CPF já cadastrado no sistema")))
  /\ ((forall q, In q (pessoas db) ->
                 Pessoa.cpf q = InsertPessoa.cpf pessoaData ->
                 Pessoa.isActive q <> Some true) ->
      snd (post_api_pessoas db now (Some pessoaData)) =
      mkResponse 500 (body_message "Falha ao cadastrar pessoa")).
Proof.
  intros Htaken. unfold post_api_pessoas.
  destruct (createPessoa_rejects db now pessoaData Htaken) as [Hsame [e He]].
  destruct (getPessoaByCpf db (InsertPessoa.cpf pessoaData)) as [q|] eqn:Hget.
  - split; [reflexivity|]. split; [reflexivity|].
    intros Hnone. apply getPessoaByCpf_None in Hnone. congruence.
  - destruct (createPessoa db now pessoaData) as [db' res].
    simpl in Hsame, He. subst res.
    split; [exact Hsame|]. split; [|reflexivity].
    intros [q (Hq & Hc & Ha)].
    rewrite getPessoaByCpf_None in Hget. now destruct (Hget q Hq Hc).
Qed.

Lemma post_api_pessoas_duplicate_cpf_witness :
  cpf_taken (pessoas db_three) "11111111111" = true
  /\ post_api_pessoas db_three 5000 (Some (servidor "Ana" "11111111111")) =
     (db_three, mkResponse 400 (body_message "CPF já cadastrado no sistema")).
Proof.
  split; [reflexivity|].
  apply (post_api_pessoas_duplicate_cpf db_three 5000 (servidor "Ana" "11111111111"));
    [reflexivity|].
  exists row_ana. repeat split; simpl; auto.
Defined.

(** C8 (claim as stated, refuted).  [insertPessoaSchema] keeps the key
    [isActive]; a payload with [isActive: false] is inserted as a
    soft-deleted row, which [getPessoaByCpf] does not return. *)
Lemma createPessoa_inactive_not_read_back :
  ~ (forall db now pessoa r,
       wf db ->
       cpf_taken (pessoas db) (InsertPessoa.cpf pessoa) = false ->
       snd (createPessoa db now pessoa) = Resolve r ->
       getPessoaByCpf (fst (createPessoa db now pessoa)) (InsertPessoa.cpf pessoa)
       = Some r).
Proof.
  intros H.
  pose (pessoa := InsertPessoa.mk "Davi" None "44444444444" None 7000 "M" None
                    None None None None None None None "S" (Some (Some false))).
  specialize (H db_three 5000 pessoa (insert_row 4 5000 pessoa)
                (wf_check_sound db_three eq_refl) eq_refl eq_refl).
  vm_compute in H. discriminate.
Qed.

(** C8 (amended).  In a database that satisfies its key constraints, for a
    payload whose CPF is not stored yet and whose [isActive] key is absent
    or [true], [createPessoa] resolves with the new row and
    [getPessoaByCpf] with the same CPF, run next, returns that row. *)
Theorem createPessoa_then_getPessoaByCpf
    (db : Db) (now : Z) (pessoa : InsertPessoa.t) :
  wf db ->
  cpf_taken (pessoas db) (InsertPessoa.cpf pessoa) = false ->
  InsertPessoa.isActive pessoa = None
  \/ InsertPessoa.isActive pessoa = Some (Some true) ->
  exists novaPessoa,
    snd (createPessoa db now pessoa) = Resolve novaPessoa
    /\ novaPessoa = insert_row (pessoas_id_seq db) now pessoa
    /\ getPessoaByCpf (fst (createPessoa db now pessoa)) (InsertPessoa.cpf pessoa)
       = Some novaPessoa.
Proof.
  intros Hwf Hfree Hactive.
  rewrite (createPessoa_resolves db now pessoa (wf_seq_fresh db Hwf) Hfree).
  eexists. split; [reflexivity|]. split; [reflexivity|].
  cbn [fst]. rewrite getPessoaByCpf_filter. cbn [with_pessoas pessoas].
  rewrite filter_app, filter_none.
  - cbn [app filter]. unfold by_cpf at 1. cbn [insert_row Pessoa.cpf].
    rewrite String.eqb_refl. cbn [andb].
    replace (is_active (insert_row (pessoas_id_seq db) now pessoa)) with true;
      [reflexivity|].
    symmetry. apply is_active_true. cbn [insert_row Pessoa.isActive].
    destruct Hactive as [-> | ->]; reflexivity.
  - intros q Hq. unfold by_cpf.
    rewrite cpf_taken_false in Hfree. specialize (Hfree q Hq).
    apply String.eqb_neq in Hfree. now rewrite Hfree.
Qed.

Lemma createPessoa_then_getPessoaByCpf_witness :
  wf db_three
  /\ cpf_taken (pessoas db_three) "44444444444" = false
  /\ exists novaPessoa,
       snd (createPessoa db_three 5000 (servidor "Davi" "44444444444"))
       = Resolve novaPessoa
       /\ novaPessoa = insert_row (pessoas_id_seq db_three) 5000
                         (servidor "Davi" "44444444444")
       /\ getPessoaByCpf
            (fst (createPessoa db_three 5000 (servidor "Davi" "44444444444")))
            "44444444444" = Some novaPessoa.
Proof.
  split; [apply wf_check_sound; reflexivity|].
  split; [reflexivity|].
  apply (createPessoa_then_getPessoaByCpf db_three 5000
           (servidor "Davi" "44444444444")).
  - apply wf_check_sound; reflexivity.
  - reflexivity.
  - left; reflexivity.
Defined.

(** ** [getDashboardStats] *)

Lemma servidor_ativo_spec (p : Pessoa.t) :
  servidor_ativo_b p = true <-> servidor_ativo p.
Proof.
  unfold servidor_ativo_b, servidor_ativo.
  destruct (Pessoa.isActive p) as [[|]|]; rewrite ?String.eqb_eq;
    intuition congruence.
Qed.

Lemma afastamento_vigente_spec (hoje : Z) (a : Afastamento.t) :
  afastamento_vigente_b hoje a = true <-> afastamento_vigente hoje a.
Proof.
  unfold afastamento_vigente_b, afastamento_vigente.
  destruct (Afastamento.isActive a) as [[|]|];
    [|intuition congruence|intuition congruence].
  rewrite andb_true_iff, Z.leb_le.
  destruct (Afastamento.dataFim a) as [fim|].
  - rewrite Z.leb_le. split.
    + intros [H1 H2]. repeat split; auto. right. eauto.
    + intros (_ & H1 & [H2 | [f [H2 H3]]]); [discriminate|].
      injection H2 as ->. auto.
  - intuition.
Qed.

Lemma diaria_pendente_spec (d : Diaria.t) :
  diaria_pendente_b d = true <-> diaria_pendente d.
Proof.
  unfold diaria_pendente_b, diaria_pendente.
  destruct (Diaria.isActive d) as [[|]|]; rewrite ?Z.eqb_eq;
    intuition congruence.
Qed.

Lemma arma_em_uso_spec (w : Armamento.t) :
  arma_em_uso_b w = true <-> arma_em_uso w.
Proof.
  unfold arma_em_uso_b, arma_em_uso.
  destruct (Armamento.isActive w) as [[|]|], (Armamento.situacao w) as [s|];
    rewrite ?String.eqb_eq; intuition congruence.
Qed.

Lemma count_where {A : Type} (t : list A) (c : A -> Sql.tri) (P : A -> bool) :
  (forall r, Sql.holds (c r) = P r) ->
  count (where_ (select_from t) c) = count_rows P t.
Proof.
  intros H. unfold count, count_rows, execute, where_, select_from.
  cbn [config_where config_orderBy config_limit from].
  now rewrite (filter_ext _ _ H).
Qed.

Lemma filter_all {A : Type} (f : A -> bool) (l : list A) :
  (forall x, In x l -> f x = true) -> filter f l = l.
Proof.
  induction l as [|a l IH]; simpl; intros H; [reflexivity|].
  rewrite (H a (or_introl eq_refl)). f_equal. apply IH. intros x Hx. apply H. now right.
Qed.

Lemma count_rows_perm {A : Type} (P : A -> bool) (l l' : list A) :
  Permutation l l' -> count_rows P l = count_rows P l'.
Proof.
  intros H. unfold count_rows. f_equal.
  induction H as [|x l l' H IH|x y l|l l' l'' H1 IH1 H2 IH2]; simpl.
  - reflexivity.
  - destruct (P x); simpl; now rewrite IH.
  - destruct (P x), (P y); reflexivity.
  - congruence.
Qed.

(** C3.  With [hoje] the day the clock reading falls in (days of 86400000
    milliseconds counted from the epoch, as [toISOString] dates them), the
    four counters are the numbers of active persons of type ['S'], of
    active absences that began on or before [hoje] and have no end or end
    on or after [hoje], of active per-diem requests with status id 1, and of
    active weapons in situation ['EM_USO']; on a table of three active
    servidores and two active terceirizados, in any order, the first
    counter is 3. *)
Theorem getDashboardStats_counts (db : Db) (now hoje : Z) :
  86400000 * hoje <= now < 86400000 * (hoje + 1) ->
  getDashboardStats db now =
  DashboardStats.mk
    (count_rows servidor_ativo_b (pessoas db))
    (count_rows (afastamento_vigente_b hoje) (afastamentos db))
    (count_rows diaria_pendente_b (diarias db))
    (count_rows arma_em_uso_b (armamento db))
  /\ forall servidores terceirizados,
       Permutation (pessoas db) (servidores ++ terceirizados) ->
       Forall servidor_ativo servidores ->
       Forall (fun p => Pessoa.isActive p = Some true
                        /\ Pessoa.tipoPessoa p = "T"%string) terceirizados ->
       length servidores = 3%nat ->
       length terceirizados = 2%nat ->
       DashboardStats.totalServidores (getDashboardStats db now) = 3.
Proof.
  intros Hday.
  assert (Hhoje : toISODate now = hoje).
  { unfold toISODate. symmetry.
    apply (Z.div_unique now 86400000 hoje (now - 86400000 * hoje)); lia. }
  clear Hday. subst hoje.
  assert (Hstats : getDashboardStats db now =
    DashboardStats.mk
      (count_rows servidor_ativo_b (pessoas db))
      (count_rows (afastamento_vigente_b (toISODate now)) (afastamentos db))
      (count_rows diaria_pendente_b (diarias db))
      (count_rows arma_em_uso_b (armamento db))).
  { unfold getDashboardStats. f_equal; apply count_where; intros r;
      unfold and_; rewrite ?holds_and3.
    - unfold servidor_ativo_b, eq_bool, eq_text; simpl.
      destruct (Pessoa.isActive r) as [[|]|]; simpl; try reflexivity.
      now destruct (String.eqb _ _).
    - unfold afastamento_vigente_b, eq_bool, lte, gte; simpl.
      destruct (Afastamento.isActive r) as [[|]|]; simpl; try reflexivity.
      destruct (Afastamento.dataInicio r <=? toISODate now); simpl;
        [|reflexivity].
      destruct (Afastamento.dataFim r) as [fim|]; simpl; [|reflexivity].
      rewrite Z.geb_leb. now destruct (toISODate now <=? fim).
    - unfold diaria_pendente_b, eq_bool, eq_int; simpl.
      destruct (Diaria.isActive r) as [[|]|]; simpl; try reflexivity.
      now destruct (Diaria.statusId r =? 1).
    - unfold arma_em_uso_b, eq_bool, eq_text; simpl.
      destruct (Armamento.isActive r) as [[|]|], (Armamento.situacao r) as [s|];
        simpl; try reflexivity.
      now destruct (String.eqb s _). }
  split; [exact Hstats|].
  intros servidores terceirizados Hperm Hs Ht Hls Hlt.
  rewrite Hstats. cbn [DashboardStats.totalServidores].
  rewrite (count_rows_perm _ _ _ Hperm). unfold count_rows.
  rewrite filter_app, filter_all, filter_none.
  - rewrite app_nil_r, Hls. reflexivity.
  - intros p Hp. rewrite Forall_forall in Ht. destruct (Ht p Hp) as [Ha HT].
    unfold servidor_ativo_b. now rewrite Ha, HT.
  - intros p Hp. rewrite Forall_forall in Hs.
    apply servidor_ativo_spec. now apply Hs.
Qed.

Lemma getDashboardStats_counts_witness :
  86400000 * dia_2024_06_01 <= now_2024_06_01 < 86400000 * (dia_2024_06_01 + 1)
  /\ getDashboardStats db_dashboard now_2024_06_01 = DashboardStats.mk 3 1 1 1
  /\ DashboardStats.totalServidores (getDashboardStats db_fixture 86400000) = 3.
Proof.
  assert (Hday : 86400000 * dia_2024_06_01 <= now_2024_06_01
                 < 86400000 * (dia_2024_06_01 + 1)).
  { unfold dia_2024_06_01, now_2024_06_01. lia. }
  split; [exact Hday|]. split.
  - rewrite (proj1 (getDashboardStats_counts db_dashboard now_2024_06_01
                      dia_2024_06_01 Hday)).
    reflexivity.
  - pose (t := fun nome cpf : string =>
      InsertPessoa.mk nome None cpf None 7000 "M" None None None None None None
        None None "T" None).
    apply (proj2 (getDashboardStats_counts db_fixture 86400000 1 ltac:(lia))
             [insert_row 1 1000 (servidor "Ana" "11111111111");
              insert_row 3 3000 (servidor "Bia" "33333333333");
              insert_row 4 4000 (servidor "Caio" "44444444444")]
             [insert_row 2 2000 (t "Tiago" "22222222222");
              insert_row 5 5000 (t "Taís" "55555555555")]).
    + simpl. apply perm_skip.
      eapply perm_trans; [apply perm_swap|]. apply perm_skip.
      apply perm_swap.
    + repeat constructor.
    + repeat constructor.
    + reflexivity.
    + reflexivity.
Defined.

(** ** [deletePessoa] *)

Lemma deletePessoa_pessoas (db : Db) (now id : Z) :
  pessoas (deletePessoa db now id) =
  map (fun r => if Pessoa.id r =? id then set_inactive now r else r) (pessoas db).
Proof.
  unfold deletePessoa, update_set. cbn [with_pessoas pessoas].
  apply map_ext. intros r. now rewrite holds_eq_int.
Qed.

Lemma deletePessoa_map (db : Db) (now id : Z) :
  deletePessoa db now id =
  with_pessoas db
    (map (fun r => if Pessoa.id r =? id then set_inactive now r else r) (pessoas db)).
Proof.
  unfold deletePessoa, update_set. f_equal.
  apply map_ext. intros r. now rewrite holds_eq_int.
Qed.

(** What the soft delete writes: [isActive] and [updatedAt], nothing else. *)
Lemma set_inactive_fields (now : Z) (r : Pessoa.t) :
  set_inactive now r =
  Pessoa.mk (Pessoa.id r) (Pessoa.nome r) (Pessoa.nomeSocial r) (Pessoa.cpf r)
    (Pessoa.rg r) (Pessoa.dataNascimento r) (Pessoa.sexo r)
    (Pessoa.estadoCivil r) (Pessoa.nomePai r) (Pessoa.nomeMae r)
    (Pessoa.telefone r) (Pessoa.email r) (Pessoa.endereco r)
    (Pessoa.municipioId r) (Pessoa.cep r) (Pessoa.tipoPessoa r)
    (Some false) (Pessoa.createdAt r) now.
Proof. reflexivity. Qed.

Lemma set_inactive_twice (now now' : Z) (r : Pessoa.t) :
  set_inactive now' (set_inactive now r) = set_inactive now' r.
Proof. reflexivity. Qed.

(** C5 (claim as stated, refuted).  A second [deletePessoa] at a later time
    writes [updatedAt] again, so the state is not the one the first call
    left. *)
Lemma deletePessoa_twice_not_unchanged :
  ~ (forall db now now' id,
       id_taken (pessoas db) id = true ->
       deletePessoa (deletePessoa db now id) now' id = deletePessoa db now id).
Proof.
  intros H. specialize (H db_three 5000 6000 1 eq_refl).
  vm_compute in H. discriminate.
Qed.

(** C5 (amended).  For a stored person [r] with the given id,
    [deletePessoa] keeps every row (the ids of the table are unchanged),
    replaces [r] by [r] with [isActive = false] and [updatedAt = now] and
    every other column as it was, leaves rows with another id as they are,
    and [getPessoaById] then finds nothing.  A second [deletePessoa]
    changes nothing but the [updatedAt] stamp: its result is the one of a
    single call made at the later time, and it is the state the first call
    left if and only if the clock has not moved. *)
Theorem deletePessoa_soft_delete
    (db : Db) (now now' id : Z) (r : Pessoa.t) :
  In r (pessoas db) ->
  Pessoa.id r = id ->
  map Pessoa.id (pessoas (deletePessoa db now id)) = map Pessoa.id (pessoas db)
  /\ In (soft_deleted_row now r) (pessoas (deletePessoa db now id))
  /\ (forall q, In q (pessoas (deletePessoa db now id)) -> Pessoa.id q = id ->
                Pessoa.isActive q = Some false /\ Pessoa.updatedAt q = now)
  /\ (forall q, In q (pessoas db) -> Pessoa.id q <> id ->
                In q (pessoas (deletePessoa db now id)))
  /\ getPessoaById (deletePessoa db now id) id = None
  /\ deletePessoa (deletePessoa db now id) now' id = deletePessoa db now' id
  /\ (deletePessoa (deletePessoa db now id) now' id = deletePessoa db now id
      <-> now' = now).
Proof.
  intros Hin Hid.
  assert (Htwice : forall t, deletePessoa (deletePessoa db now id) t id
                             = deletePessoa db t id).
  { intros t. rewrite (deletePessoa_map (deletePessoa db now id)).
    rewrite deletePessoa_pessoas, map_map, (deletePessoa_map db now),
      (deletePessoa_map db t).
    unfold with_pessoas; cbn [pessoas_id_seq afastamentos diarias armamento].
    f_equal. apply map_ext. intros q.
    destruct (Pessoa.id q =? id) eqn:E.
    - cbn [set_inactive set_pessoa Pessoa.id]. rewrite E. reflexivity.
    - now rewrite E. }
  split; [|split; [|split; [|split; [|split; [|split]]]]].
  - rewrite deletePessoa_pessoas, map_map. apply map_ext. intros q.
    now destruct (Pessoa.id q =? id).
  - rewrite deletePessoa_pessoas. apply in_map_iff. exists r.
    split; [|exact Hin]. apply Z.eqb_eq in Hid. now rewrite Hid.
  - intros q Hq Eq. rewrite deletePessoa_pessoas in Hq.
    apply in_map_iff in Hq as [q0 [<- Hq0]].
    destruct (Pessoa.id q0 =? id) eqn:E; [split; reflexivity|].
    apply Z.eqb_neq in E. now destruct E.
  - intros q Hq Hne. rewrite deletePessoa_pessoas. apply in_map_iff.
    exists q. split; [|exact Hq]. apply Z.eqb_neq in Hne. now rewrite Hne.
  - rewrite getPessoaById_filter, hd_error_filter_None.
    intros x Hx. rewrite deletePessoa_pessoas in Hx.
    apply in_map_iff in Hx as [q [<- Hq]]. unfold by_id.
    destruct (Pessoa.id q =? id) eqn:E.
    + apply andb_false_iff. right. reflexivity.
    + now rewrite E.
  - apply Htwice.
  - rewrite Htwice. split; [|now intros ->].
    intros E. apply (f_equal pessoas) in E. rewrite !deletePessoa_pessoas in E.
    rewrite map_ext_in_iff in E. pose proof (E r Hin) as Er. cbn beta in Er.
    apply Z.eqb_eq in Hid. rewrite Hid in Er.
    apply (f_equal Pessoa.updatedAt) in Er. exact Er.
Qed.

Lemma deletePessoa_soft_delete_witness :
  In row_ana (pessoas db_three)
  /\ Pessoa.id row_ana = 1
  /\ Pessoa.updatedAt row_ana = 1000
  /\ getPessoaById db_three 1 = Some row_ana
  /\ getPessoaById (deletePessoa db_three 5000 1) 1 = None
  /\ In (soft_deleted_row 5000 row_ana) (pessoas (deletePessoa db_three 5000 1))
  /\ Pessoa.updatedAt (soft_deleted_row 5000 row_ana) = 5000
  /\ deletePessoa (deletePessoa db_three 5000 1) 6000 1
     <> deletePessoa db_three 5000 1.
Proof.
  assert (Hin : In row_ana (pessoas db_three)) by (simpl; auto).
  split; [exact Hin|]. split; [reflexivity|]. split; [reflexivity|].
  split; [reflexivity|].
  destruct (deletePessoa_soft_delete db_three 5000 6000 1 row_ana Hin eq_refl)
    as (_ & Hrow & _ & _ & Hget & _ & Hiff).
  split; [exact Hget|]. split; [exact Hrow|]. split; [reflexivity|].
  intros E. apply Hiff in E. discriminate E.
Defined.

(** ** [updatePessoa] *)

Lemma split_by_id (t : list Pessoa.t) (r : Pessoa.t) :
  NoDup (map Pessoa.id t) -> In r t ->
  exists l1 l2,
    t = l1 ++ r :: l2 /\
    forall q, In q (l1 ++ l2) -> Pessoa.id q <> Pessoa.id r.
Proof.
  intros Hnd Hin. apply in_split in Hin as [l1 [l2 ->]].
  exists l1, l2. split; [reflexivity|].
  rewrite map_app in Hnd. cbn [map] in Hnd. apply NoDup_remove_2 in Hnd.
  intros q Hq E. apply Hnd. rewrite <- map_app, <- E. now apply in_map.
Qed.

Lemma update_set_one (l1 l2 : list Pessoa.t) (r : Pessoa.t) (set : Pessoa.t -> Pessoa.t) :
  (forall q, In q (l1 ++ l2) -> Pessoa.id q <> Pessoa.id r) ->
  update_set (l1 ++ r :: l2) set (has_id (Pessoa.id r)) =
  (l1 ++ set r :: l2, [set r]).
Proof.
  intros Hne. unfold update_set, has_id.
  assert (Hoff : forall q, In q (l1 ++ l2) ->
                   Sql.holds (eq_int (Some (Pessoa.id q)) (Pessoa.id r)) = false).
  { intros q Hq. rewrite holds_eq_int. apply Z.eqb_neq. now apply Hne. }
  assert (Hon : Sql.holds (eq_int (Some (Pessoa.id r)) (Pessoa.id r)) = true).
  { rewrite holds_eq_int. apply Z.eqb_refl. }
  f_equal.
  - rewrite map_app. cbn [map]. rewrite Hon. f_equal; [|f_equal].
    + rewrite <- (map_id l1) at 2. apply map_ext_in. intros q Hq.
      rewrite Hoff; [reflexivity | apply in_or_app; now left].
    + rewrite <- (map_id l2) at 2. apply map_ext_in. intros q Hq.
      rewrite Hoff; [reflexivity | apply in_or_app; now right].
  - rewrite filter_app. cbn [filter]. rewrite Hon.
    rewrite !filter_none; [reflexivity | |].
    + intros q Hq. apply Hoff, in_or_app. now right.
    + intros q Hq. apply Hoff, in_or_app. now left.
Qed.

Lemma update_set_none (t : list Pessoa.t) (id : Z) (set : Pessoa.t -> Pessoa.t) :
  id_taken t id = false ->
  update_set t set (has_id id) = (t, []).
Proof.
  intros H. rewrite id_taken_false in H. unfold update_set, has_id.
  assert (Hoff : forall q, In q t ->
                   Sql.holds (eq_int (Some (Pessoa.id q)) id) = false).
  { intros q Hq. rewrite holds_eq_int. apply Z.eqb_neq. now apply H. }
  f_equal.
  - rewrite <- (map_id t) at 2. apply map_ext_in. intros q Hq. now rewrite Hoff.
  - now rewrite filter_none.
Qed.

Lemma unique_after_update_one (l1 l2 : list Pessoa.t) (r' : Pessoa.t) :
  (forall q, In q (l1 ++ l2) -> Pessoa.cpf q <> Pessoa.cpf r') ->
  unique_after_update (l1 ++ r' :: l2) [r'] = true.
Proof.
  intros Hne. unfold unique_after_update, cpf_count. cbn [forallb].
  rewrite andb_true_r, filter_app. cbn [filter]. rewrite String.eqb_refl.
  rewrite !filter_none; [reflexivity | |];
    intros q Hq; apply String.eqb_neq, Hne, in_or_app; auto.
Qed.

(** The update of a stored row succeeds when no other row holds the CPF
    the patch sets. *)
Lemma updatePessoa_resolves
    (db : Db) (now id : Z) (pessoa : PartialInsertPessoa.t) (r : Pessoa.t) :
  wf db ->
  In r (pessoas db) ->
  Pessoa.id r = id ->
  (forall c, PartialInsertPessoa.cpf pessoa = Some c ->
     forall q, In q (pessoas db) -> Pessoa.id q <> id -> Pessoa.cpf q <> c) ->
  exists l1 l2,
    pessoas db = l1 ++ r :: l2
    /\ (forall q, In q (l1 ++ l2) -> Pessoa.id q <> id)
    /\ updatePessoa db now id pessoa =
       (with_pessoas db (l1 ++ set_pessoa pessoa now r :: l2),
        Resolve (Some (set_pessoa pessoa now r))).
Proof.
  intros (Hid & Hcpf & _) Hin <- Hfree.
  destruct (split_by_id _ _ Hid Hin) as (l1 & l2 & Ht & Hne).
  exists l1, l2. split; [exact Ht|]. split; [exact Hne|].
  unfold updatePessoa. rewrite Ht.
  change (fun p => eq_int (Some (Pessoa.id p)) (Pessoa.id r))
    with (has_id (Pessoa.id r)).
  rewrite (update_set_one l1 l2 r _ Hne).
  rewrite unique_after_update_one; [reflexivity|].
  intros q Hq. cbn [set_pessoa Pessoa.cpf].
  assert (Hq' : In q (pessoas db)).
  { rewrite Ht. apply in_app_or in Hq. apply in_or_app.
    destruct Hq; [now left | right; now right]. }
  destruct (PartialInsertPessoa.cpf pessoa) as [c|] eqn:Ec; cbn [assign].
  - apply (Hfree c eq_refl q Hq'). now apply Hne.
  - rewrite Ht, map_app in Hcpf. cbn [map] in Hcpf.
    apply NoDup_remove_2 in Hcpf. intros E. apply Hcpf.
    rewrite <- map_app, <- E. now apply in_map.
Qed.

Lemma updatePessoa_cases (db : Db) (now id : Z) (pessoa : PartialInsertPessoa.t) :
  let t' := map (fun r => if Pessoa.id r =? id then set_pessoa pessoa now r else r)
              (pessoas db) in
  let returning := map (set_pessoa pessoa now)
                     (filter (fun r => Pessoa.id r =? id) (pessoas db)) in
  updatePessoa db now id pessoa = (with_pessoas db t', Resolve (hd_error returning))
  \/ updatePessoa db now id pessoa =
     (db, Reject (unique_violation "pessoas_cpf_unique")).
Proof.
  intros t' returning. unfold updatePessoa, update_set.
  replace (map _ (pessoas db)) with t'
    by (apply map_ext; intros r; now rewrite holds_eq_int).
  replace (map _ (filter _ (pessoas db))) with returning
    by (unfold returning; f_equal; apply filter_ext; intros r;
        now rewrite holds_eq_int).
  destruct (unique_after_update t' returning); [now left | now right].
Qed.

(** With no row of that id the statement updates nothing and [returning()]
    is empty: the call resolves with [undefined]. *)
Lemma updatePessoa_unknown_id
    (db : Db) (now id : Z) (pessoa : PartialInsertPessoa.t) :
  id_taken (pessoas db) id = false ->
  updatePessoa db now id pessoa = (db, Resolve None).
Proof.
  intros H. unfold updatePessoa.
  change (fun p => eq_int (Some (Pessoa.id p)) id) with (has_id id).
  rewrite (update_set_none _ _ _ H). cbn. now rewrite with_pessoas_same.
Qed.

Lemma Forall2_map_self {A : Type} (P : A -> A -> Prop) (f : A -> A) (l : list A) :
  (forall x, In x l -> P x (f x)) -> Forall2 P l (map f l).
Proof.
  induction l as [|a l IH]; simpl; intros H; constructor.
  - apply H. now left.
  - apply IH. intros x Hx. apply H. now right.
Qed.







(** ** [getAfastamentos] *)

(** C9.  [getAfastamentos] never reads [ativo]: with one [pessoaId] and any
    two values of [ativo] (absent, [true], [false]) it returns the same
    list. *)
Theorem getAfastamentos_ignores_ativo
    (db : Db) (pessoaId : option Z) (ativo ativo' : option bool) :
  getAfastamentos db (Some (AfastamentoFilters.mk pessoaId ativo)) =
  getAfastamentos db (Some (AfastamentoFilters.mk pessoaId ativo')).
Proof. reflexivity. Qed.

(** An absence that ended before today is still listed under
    [ativo: true]. *)
Example getAfastamentos_ativo_lists_ended :
  let ended := Afastamento.mk 1 1 1 10 (Some 20) None None None (Some true) 1000 1000 in
  let db := mkDb [] 1 [ended] [] [] in
  afastamento_vigente_b 100 ended = false
  /\ getAfastamentos db (Some (AfastamentoFilters.mk None (Some true))) = [ended].
Proof. split; reflexivity. Qed.

(** ** [getRecentActivities] *)

Section MapCommutes.
Context {A B : Type} (g : A -> B).




End MapCommutes.





Example getRecentActivities_db_feed :
  getRecentActivities db_feed =
  [Activity.mk 3 "diaria_criada" "Nova diária criada para Belém" 9000 (Some "Carla");
   Activity.mk 4 "pessoa_criada" "Nova pessoa cadastrada: Davi" 3500 (Some "Davi");
   Activity.mk 2 "diaria_criada" "Nova diária criada para Natal" 2500 (Some "Bruno");
   Activity.mk 2 "pessoa_criada" "Nova pessoa cadastrada: Bruno" 2000 (Some "Bruno");
   Activity.mk 1 "pessoa_criada" "Nova pessoa cadastrada: Ana" 1000 (Some "Ana")].
Proof. reflexivity. Qed.


(** ** Invariants of a run

    With a clock that does not go back, no stored stamp is ahead of the
    clock. *)

Lemma stamps_le_mono (now now' : Z) (db : Db) :
  now <= now' -> stamps_le now db -> stamps_le now' db.
Proof.
  intros Hle. unfold stamps_le. apply Forall_impl. intros p [H1 H2]. lia.
Qed.

Lemma stamps_le_createPessoa (now now' : Z) (db : Db) (pessoa : InsertPessoa.t) :
  now <= now' -> stamps_le now db ->
  stamps_le now' (fst (createPessoa db now' pessoa)).
Proof.
  intros Hle H. apply (stamps_le_mono _ _ _ Hle) in H.
  unfold createPessoa. cbn [with_pessoas_id_seq pessoas].
  destruct (id_taken _ _); [exact H|].
  destruct (cpf_taken _ _); [exact H|].
  unfold stamps_le in *. cbn [fst with_pessoas pessoas].
  apply Forall_app. split; [exact H|].
  constructor; [|constructor]. cbn [insert_row Pessoa.createdAt Pessoa.updatedAt].
  lia.
Qed.

Lemma stamps_le_updatePessoa
    (now now' id : Z) (db : Db) (pessoa : PartialInsertPessoa.t) :
  now <= now' -> stamps_le now db ->
  stamps_le now' (fst (updatePessoa db now' id pessoa)).
Proof.
  intros Hle H. apply (stamps_le_mono _ _ _ Hle) in H.
  destruct (updatePessoa_cases db now' id pessoa) as [E|E]; rewrite E;
    [|exact H].
  unfold stamps_le in *. cbn [fst with_pessoas pessoas].
  rewrite Forall_forall in H |- *. intros x Hx.
  apply in_map_iff in Hx as [q [<- Hq]]. specialize (H q Hq).
  destruct (Pessoa.id q =? id); [|exact H].
  cbn [set_pessoa Pessoa.createdAt Pessoa.updatedAt]. lia.
Qed.

Lemma stamps_le_deletePessoa (now now' id : Z) (db : Db) :
  now <= now' -> stamps_le now db ->
  stamps_le now' (deletePessoa db now' id).
Proof.
  intros Hle H. apply (stamps_le_mono _ _ _ Hle) in H.
  unfold stamps_le in *. rewrite deletePessoa_pessoas.
  rewrite Forall_forall in H |- *. intros x Hx.
  apply in_map_iff in Hx as [q [<- Hq]]. specialize (H q Hq).
  destruct (Pessoa.id q =? id); [|exact H].
  cbn [set_inactive set_pessoa Pessoa.createdAt Pessoa.updatedAt]. lia.
Qed.

(** ** The name filter

    [like(pessoas.nome, `%${nome}%`)] is a substring test exactly when the
    filter holds none of the characters LIKE reads as part of the
    pattern. *)

Lemma like_percent_unfold (p s : string) :
  Sql.like_match (String "%" p) s =
  Sql.like_match p s
  || match s with
     | EmptyString => false
     | String _ s' => Sql.like_match (String "%" p) s'
     end.
Proof. destruct s; reflexivity. Qed.

Lemma like_percent (p s : string) :
  Sql.like_match (String "%" p) s = true <->
  exists a b, s = (a ++ b)%string /\ Sql.like_match p b = true.
Proof.
  induction s as [|c s IH]; rewrite like_percent_unfold, orb_true_iff.
  - split.
    + intros [H|H]; [|discriminate]. exists EmptyString, EmptyString. auto.
    + intros (a & b & E & H). left.
      destruct a; [|discriminate]. simpl in E. now subst b.
  - rewrite IH. split.
    + intros [H|(a & b & E & H)].
      * exists EmptyString, (String c s). auto.
      * exists (String c a), b. simpl. now rewrite E.
    + intros (a & b & E & H). destruct a as [|c' a]; simpl in E.
      * left. now subst b.
      * right. injection E as _ E. eauto.
Qed.

Lemma like_literal_char (c : ascii) (p s : string) :
  wildcard c = false ->
  Sql.like_match (String c p) s =
  match s with
  | EmptyString => false
  | String d s' => Ascii.eqb c d && Sql.like_match p s'
  end.
Proof.
  unfold wildcard. intros H.
  apply orb_false_iff in H as [H H3]. apply orb_false_iff in H as [H1 H2].
  cbn [Sql.like_match]. now rewrite H1, H2, H3.
Qed.

Lemma like_literal (n p s : string) :
  literal n = true ->
  Sql.like_match (n ++ p) s = true <->
  exists b, s = (n ++ b)%string /\ Sql.like_match p b = true.
Proof.
  revert s. induction n as [|c n IH]; intros s Hn; cbn [String.append].
  - split; [eauto | now intros (b & -> & H)].
  - simpl in Hn. apply andb_prop in Hn as [Hc Hn].
    apply negb_true_iff in Hc. rewrite (like_literal_char _ _ _ Hc).
    destruct s as [|d s].
    + split; [discriminate | now intros (b & E & _)].
    + rewrite andb_true_iff, (IH s Hn), Ascii.eqb_eq. split.
      * intros (-> & b & -> & H). eauto.
      * intros (b & E & H). injection E as -> ->. eauto.
Qed.

Lemma like_contains (nome s : string) :
  literal nome = true ->
  Sql.like_match ("%" ++ nome ++ "%") s = true <->
  exists a b, s = (a ++ nome ++ b)%string.
Proof.
  intros Hn. change ("%" ++ nome ++ "%")%string with (String "%" (nome ++ "%")).
  rewrite like_percent. split.
  - intros (a & b & -> & H). apply (like_literal _ _ _ Hn) in H as (b' & -> & _).
    eauto.
  - intros (a & b & ->). exists a, (nome ++ b)%string. split; [reflexivity|].
    apply (like_literal _ _ _ Hn). exists b. split; [reflexivity|].
    apply like_percent. exists b, EmptyString. split; [|reflexivity].
    clear. induction b as [|c b IH]; simpl; [reflexivity | now rewrite <- IH].
Qed.

(** A [_] in the filter matches any character: "A_a" selects "Ana". *)
Example like_underscore : Sql.like_match "%A_a%" "Ana" = true.
Proof. reflexivity. Qed.

(** ** The key constraints along a run

    [createPessoa], [updatePessoa] and [deletePessoa] keep [wf], which
    therefore holds in every state they reach from the empty database. *)

Lemma wf_db_empty : wf db_empty.
Proof. repeat split; constructor. Qed.

Lemma NoDup_snoc {A : Type} (l : list A) (x : A) :
  NoDup l -> ~ In x l -> NoDup (l ++ [x]).
Proof.
  intros Hl Hx. apply (Permutation_NoDup (l := x :: l)).
  - apply Permutation_cons_append.
  - now constructor.
Qed.

Lemma wf_createPessoa (db : Db) (now : Z) (pessoa : InsertPessoa.t) :
  wf db -> wf (fst (createPessoa db now pessoa)).
Proof.
  intros Hwf. pose proof (wf_seq_fresh db Hwf) as Hfresh.
  destruct Hwf as (Hid & Hcpf & Hseq).
  assert (Hseq' : Forall (fun p => Pessoa.id p < pessoas_id_seq db + 1) (pessoas db)).
  { revert Hseq. apply Forall_impl. intros p Hp. lia. }
  unfold createPessoa. cbn [with_pessoas_id_seq pessoas]. rewrite Hfresh.
  destruct (cpf_taken _ _) eqn:Etaken; cbn [fst];
    unfold wf; cbn [with_pessoas pessoas pessoas_id_seq].
  - auto.
  - rewrite !map_app. cbn [map insert_row Pessoa.id Pessoa.cpf].
    split; [|split].
    + apply NoDup_snoc; [exact Hid|]. intros Hin.
      apply in_map_iff in Hin as [q [Eq Hq]].
      rewrite id_taken_false in Hfresh. now apply (Hfresh q Hq).
    + apply NoDup_snoc; [exact Hcpf|]. intros Hin.
      apply in_map_iff in Hin as [q [Eq Hq]].
      rewrite cpf_taken_false in Etaken. now apply (Etaken q Hq).
    + apply Forall_app. split; [exact Hseq'|].
      constructor; [|constructor].
      cbn [insert_row Pessoa.id with_pessoas_id_seq pessoas_id_seq]. lia.
Qed.

Lemma wf_deletePessoa (db : Db) (now id : Z) :
  wf db -> wf (deletePessoa db now id).
Proof.
  intros (Hid & Hcpf & Hseq). rewrite deletePessoa_map. unfold wf.
  cbn [with_pessoas pessoas pessoas_id_seq]. rewrite !map_map.
  split; [|split].
  - erewrite map_ext; [exact Hid|]. intros q. now destruct (Pessoa.id q =? id).
  - erewrite map_ext; [exact Hcpf|]. intros q. now destruct (Pessoa.id q =? id).
  - rewrite Forall_forall in Hseq |- *. intros x Hx.
    apply in_map_iff in Hx as [q [<- Hq]]. specialize (Hseq q Hq).
    now destruct (Pessoa.id q =? id).
Qed.

Lemma unique_after_update_one_inv (l1 l2 : list Pessoa.t) (r' : Pessoa.t) :
  unique_after_update (l1 ++ r' :: l2) [r'] = true ->
  forall q, In q (l1 ++ l2) -> Pessoa.cpf q <> Pessoa.cpf r'.
Proof.
  unfold unique_after_update, cpf_count. cbn [forallb].
  rewrite andb_true_r, filter_app. cbn [filter]. rewrite String.eqb_refl.
  rewrite length_app. cbn [length]. intros H q Hq E.
  apply Nat.leb_le in H.
  assert (Hin : In q (filter (fun p => String.eqb (Pessoa.cpf p) (Pessoa.cpf r')) l1)
                \/ In q (filter (fun p => String.eqb (Pessoa.cpf p) (Pessoa.cpf r')) l2)).
  { apply in_app_or in Hq as [Hq|Hq]; [left | right];
      apply filter_In; (split; [exact Hq | now apply String.eqb_eq]). }
  destruct Hin as [Hin|Hin];
    [destruct (filter _ l1) | destruct (filter _ l2)];
    simpl in Hin, H; try contradiction; lia.
Qed.

Lemma wf_updatePessoa (db : Db) (now id : Z) (pessoa : PartialInsertPessoa.t) :
  wf db -> wf (fst (updatePessoa db now id pessoa)).
Proof.
  intros Hwf. destruct (id_taken (pessoas db) id) eqn:Etaken.
  - apply existsb_exists in Etaken as [r [Hin Er]]. apply Z.eqb_eq in Er.
    subst id. destruct Hwf as (Hid & Hcpf & Hseq).
    destruct (split_by_id _ _ Hid Hin) as (l1 & l2 & Ht & Hne).
    unfold updatePessoa. rewrite Ht.
    change (fun p => eq_int (Some (Pessoa.id p)) (Pessoa.id r))
      with (has_id (Pessoa.id r)).
    rewrite (update_set_one l1 l2 r _ Hne).
    destruct (unique_after_update _ _) eqn:Eu; cbn [fst].
    + pose proof (unique_after_update_one_inv _ _ _ Eu) as Hfree.
      unfold wf. cbn [with_pessoas pessoas pessoas_id_seq].
      rewrite Ht in Hid, Hcpf, Hseq. rewrite !map_app in *. cbn [map] in *.
      split; [|split].
      * exact Hid.
      * apply NoDup_remove_1 in Hcpf.
        apply (Permutation_NoDup
                 (l := Pessoa.cpf (set_pessoa pessoa now r)
                       :: (map Pessoa.cpf l1 ++ map Pessoa.cpf l2))).
        -- apply Permutation_middle.
        -- constructor; [|exact Hcpf]. rewrite <- map_app. intros Hq.
           apply in_map_iff in Hq as [q [Eq Hq]]. now apply (Hfree q Hq).
      * apply Forall_app in Hseq as [H1 H2]. apply Forall_app. split; [exact H1|].
        inversion H2; subst. constructor; assumption.
    + repeat split; assumption.
  - pose proof (updatePessoa_unknown_id db now id pessoa Etaken) as E.
    rewrite E. exact Hwf.
Qed.

(** * Further properties of the storage layer *)

(** ** Reading [pessoas] *)

Lemma filter_length_le {A : Type} (f : A -> bool) (l : list A) :
  (length (filter f l) <= length l)%nat.
Proof.
  induction l as [|a l IH]; simpl; [lia|]. destruct (f a); simpl; lia.
Qed.

(** X1.  Whatever the filters, [getPessoas] answers newest first, and only
    with stored rows: it returns no row the table does not hold and no more
    rows than the table has. *)
Theorem getPessoas_newest_first_stored (db : Db) (filters : option PessoaFilters.t) :
  StronglySorted (desc Pessoa.createdAt) (getPessoas db filters)
  /\ (forall p, In p (getPessoas db filters) -> In p (pessoas db))
  /\ (length (getPessoas db filters) <= length (pessoas db))%nat.
Proof.
  rewrite getPessoas_final_where. split; [apply sort_desc_sorted|]. split.
  - intros p Hp. apply sort_desc_In, filter_In in Hp. tauto.
  - rewrite sort_desc_length. apply filter_length_le.
Qed.

(** X2.  A filter that is absent or the empty string is no filter: with all
    three such, [getPessoas] answers as without filters, with the active
    persons and nothing else, and so does [GET /api/pessoas]. *)
Theorem getPessoas_blank_filters (db : Db) (f : PessoaFilters.t) :
  PessoaFilters.nome f = None \/ PessoaFilters.nome f = Some ""%string ->
  PessoaFilters.cpf f = None \/ PessoaFilters.cpf f = Some ""%string ->
  PessoaFilters.tipoPessoa f = None \/ PessoaFilters.tipoPessoa f = Some ""%string ->
  getPessoas db (Some f) = getPessoas db None
  /\ (forall p, In p (getPessoas db (Some f)) <->
                In p (pessoas db) /\ Pessoa.isActive p = Some true)
  /\ get_api_pessoas db (PessoaFilters.nome f) (PessoaFilters.cpf f)
       (PessoaFilters.tipoPessoa f)
     = get_api_pessoas db None None None.
Proof.
  intros Hn Hc Ht.
  assert (E : forall n c t,
             n = None \/ n = Some ""%string ->
             c = None \/ c = Some ""%string ->
             t = None \/ t = Some ""%string ->
             getPessoas db (Some (PessoaFilters.mk n c t)) = getPessoas db None).
  { intros n c t [-> | ->] [-> | ->] [-> | ->]; reflexivity. }
  assert (Ef : getPessoas db (Some f) = getPessoas db None).
  { destruct f as [n c t]. now apply E. }
  split; [exact Ef|]. split.
  - intros p. rewrite Ef, getPessoas_unfiltered, sort_desc_In.
    rewrite filter_In, is_active_true. reflexivity.
  - unfold get_api_pessoas. rewrite (E _ _ _ Hn Hc Ht).
    now rewrite (E None None None) by now left.
Qed.

Lemma getPessoas_blank_filters_witness :
  getPessoas db_three (Some (PessoaFilters.mk (Some ""%string) None (Some ""%string)))
  = [row_bruno; row_ana].
Proof.
  destruct (getPessoas_blank_filters db_three
              (PessoaFilters.mk (Some ""%string) None (Some ""%string)))
    as [E _]; [now right | now left | now right |].
  rewrite E. reflexivity.
Defined.

(** X3.  With the name as only filter, and a name free of [%], [_] and
    backslash, [getPessoas] answers with the stored persons whose name
    contains it, whether they are active or soft-deleted. *)
Theorem getPessoas_nome_only (db : Db) (nome : string) (p : Pessoa.t) :
  nome <> ""%string ->
  literal nome = true ->
  In p (getPessoas db (Some (PessoaFilters.mk (Some nome) None None))) <->
  In p (pessoas db) /\ exists a b, Pessoa.nome p = (a ++ nome ++ b)%string.
Proof.
  intros Hne Hlit. rewrite getPessoas_final_where, sort_desc_In, filter_In.
  unfold final_where, opt_chain. cbn [PessoaFilters.tipoPessoa PessoaFilters.cpf
    PessoaFilters.nome truthy_string].
  apply String.eqb_neq in Hne. rewrite Hne.
  unfold like, Sql.cmp, Sql.holds.
  rewrite <- (like_contains nome (Pessoa.nome p) Hlit).
  destruct (Sql.like_match _ _); intuition congruence.
Qed.

Lemma getPessoas_nome_only_witness :
  In row_carla (getPessoas db_three (Some (PessoaFilters.mk (Some "arl"%string) None None)))
  /\ Pessoa.isActive row_carla = Some false.
Proof.
  split; [|reflexivity].
  apply (getPessoas_nome_only db_three "arl" row_carla);
    [discriminate | reflexivity |].
  split; [simpl; auto|]. exists "C"%string, "a"%string. reflexivity.
Defined.

Lemma NoDup_map_eq {A B : Type} (f : A -> B) (l : list A) (x y : A) :
  NoDup (map f l) -> In x l -> In y l -> f x = f y -> x = y.
Proof.
  induction l as [|a l IH]; simpl; intros Hnd Hx Hy E; [contradiction|].
  inversion Hnd as [|? ? Hnotin Hnd']; subst.
  destruct Hx as [<-|Hx], Hy as [<-|Hy]; auto.
  - exfalso. apply Hnotin. rewrite E. now apply in_map.
  - exfalso. apply Hnotin. rewrite <- E. now apply in_map.
Qed.

Lemma getPessoaById_None (db : Db) (id : Z) :
  getPessoaById db id = None <->
  forall q, In q (pessoas db) -> Pessoa.id q = id -> Pessoa.isActive q <> Some true.
Proof.
  rewrite getPessoaById_filter, hd_error_filter_None. unfold by_id.
  split; intros H q Hq.
  - intros E A. specialize (H q Hq).
    apply Z.eqb_eq in E. apply is_active_true in A. rewrite E, A in H. discriminate.
  - apply andb_false_iff.
    destruct (Pessoa.id q =? id) eqn:E; [right | now left].
    apply Z.eqb_eq in E. destruct (is_active q) eqn:A; [|reflexivity].
    apply is_active_true in A. now destruct (H q Hq E).
Qed.

Lemma getPessoaById_Some (db : Db) (id : Z) (p : Pessoa.t) :
  getPessoaById db id = Some p ->
  In p (pessoas db) /\ Pessoa.id p = id /\ Pessoa.isActive p = Some true.
Proof.
  rewrite getPessoaById_filter. intros H.
  apply hd_error_filter_Some in H as [Hin H]. unfold by_id in H.
  apply andb_prop in H as [E A]. apply Z.eqb_eq in E. apply is_active_true in A.
  auto.
Qed.

Lemma getPessoaById_found (db : Db) (p : Pessoa.t) :
  NoDup (map Pessoa.id (pessoas db)) ->
  In p (pessoas db) -> Pessoa.isActive p = Some true ->
  getPessoaById db (Pessoa.id p) = Some p.
Proof.
  intros Hnd Hin Ha.
  destruct (getPessoaById db (Pessoa.id p)) as [q|] eqn:E.
  - apply getPessoaById_Some in E as (Hq & Eid & _).
    f_equal. now apply (NoDup_map_eq Pessoa.id (pessoas db)).
  - rewrite getPessoaById_None in E. now destruct (E p Hin eq_refl).
Qed.

(** X4.  For an id within the range of the [integer] column,
    [getPessoaById] answers [undefined] exactly when no stored row has the
    id and is active; a row it returns is stored, has the id and is active;
    and under the primary key it returns every active stored row when asked
    for its id. *)
Theorem getPessoaById_spec (db : Db) (id : Z) :
  int4 id = true ->
  (getPessoaById db id = None <->
   forall q, In q (pessoas db) -> Pessoa.id q = id -> Pessoa.isActive q <> Some true)
  /\ (forall p, getPessoaById db id = Some p ->
        In p (pessoas db) /\ Pessoa.id p = id /\ Pessoa.isActive p = Some true)
  /\ (NoDup (map Pessoa.id (pessoas db)) ->
      forall p, In p (pessoas db) -> Pessoa.id p = id ->
                Pessoa.isActive p = Some true -> getPessoaById db id = Some p).
Proof.
  intros _.
  split; [apply getPessoaById_None|]. split; [apply getPessoaById_Some|].
  intros Hnd p Hin <- Ha. now apply getPessoaById_found.
Qed.

Lemma getPessoaById_spec_witness :
  int4 2 = true
  /\ getPessoaById db_three 2 = Some row_bruno
  /\ getPessoaById db_three 3 = None.
Proof.
  destruct (getPessoaById_spec db_three 2 eq_refl) as (_ & _ & Hfound).
  destruct (getPessoaById_spec db_three 3 eq_refl) as (Hnone & _ & _).
  split; [reflexivity|]. split.
  - apply Hfound.
    + apply (distinct_NoDup Z.eqb); [apply Z.eqb_eq | reflexivity].
    + simpl; auto.
    + reflexivity.
    + reflexivity.
  - apply Hnone. intros q [<-|[<-|[<-|[]]]] Hid; try discriminate Hid.
    discriminate.
Defined.

(** ** Writing [pessoas] *)

Lemma getPessoaById_after_createPessoa
    (db : Db) (now : Z) (pessoa : InsertPessoa.t) :
  wf db ->
  cpf_taken (pessoas db) (InsertPessoa.cpf pessoa) = false ->
  InsertPessoa.isActive pessoa = None
  \/ InsertPessoa.isActive pessoa = Some (Some true) ->
  getPessoaById (fst (createPessoa db now pessoa)) (pessoas_id_seq db)
  = Some (insert_row (pessoas_id_seq db) now pessoa)
  /\ forall id, id <> pessoas_id_seq db ->
       getPessoaById (fst (createPessoa db now pessoa)) id = getPessoaById db id.
Proof.
  intros Hwf Hfree Hactive. pose proof (wf_seq_fresh db Hwf) as Hfresh.
  rewrite (createPessoa_resolves db now pessoa Hfresh Hfree). cbn [fst].
  assert (Hrow : is_active (insert_row (pessoas_id_seq db) now pessoa) = true).
  { apply is_active_true. cbn [insert_row Pessoa.isActive].
    destruct Hactive as [-> | ->]; reflexivity. }
  split.
  - rewrite getPessoaById_filter. cbn [with_pessoas pessoas].
    rewrite filter_app, filter_none.
    + cbn [app filter].
      replace (by_id (pessoas_id_seq db) (insert_row (pessoas_id_seq db) now pessoa))
        with true; [reflexivity|].
      symmetry. unfold by_id. rewrite Hrow. cbn [insert_row Pessoa.id].
      now rewrite Z.eqb_refl.
    + intros q Hq. unfold by_id. rewrite id_taken_false in Hfresh.
      apply andb_false_iff. left. apply Z.eqb_neq. now apply Hfresh.
  - intros id Hid. rewrite !getPessoaById_filter. cbn [with_pessoas pessoas].
    rewrite filter_app. cbn [filter]. unfold by_id at 2.
    cbn [insert_row Pessoa.id]. apply not_eq_sym, Z.eqb_neq in Hid.
    rewrite Hid. cbn [andb]. now rewrite app_nil_r.
Qed.

(** X5.  In a database that satisfies its key constraints, when
    [createPessoa] of a payload with [isActive] absent or [true] resolves
    with a row, [getPessoaById] with the id of that row returns it, and
    every other id is answered as before the insert. *)
Theorem createPessoa_then_getPessoaById
    (db : Db) (now : Z) (pessoa : InsertPessoa.t) (novaPessoa : Pessoa.t) :
  wf db ->
  InsertPessoa.isActive pessoa = None
  \/ InsertPessoa.isActive pessoa = Some (Some true) ->
  snd (createPessoa db now pessoa) = Resolve novaPessoa ->
  getPessoaById (fst (createPessoa db now pessoa)) (Pessoa.id novaPessoa)
  = Some novaPessoa
  /\ forall id, id <> Pessoa.id novaPessoa ->
       getPessoaById (fst (createPessoa db now pessoa)) id = getPessoaById db id.
Proof.
  intros Hwf Hactive Hres.
  destruct (cpf_taken (pessoas db) (InsertPessoa.cpf pessoa)) eqn:Hfree.
  - destruct (createPessoa_rejects db now pessoa Hfree) as (_ & e & He).
    rewrite He in Hres. discriminate Hres.
  - pose proof (getPessoaById_after_createPessoa db now pessoa Hwf Hfree Hactive)
      as Hget.
    rewrite (createPessoa_resolves db now pessoa (wf_seq_fresh db Hwf) Hfree)
      in Hres.
    cbn [snd] in Hres. injection Hres as <-. exact Hget.
Qed.

Lemma createPessoa_then_getPessoaById_witness :
  snd (createPessoa db_three 5000 (servidor "Davi" "44444444444"))
  = Resolve (insert_row 4 5000 (servidor "Davi" "44444444444"))
  /\ getPessoaById (fst (createPessoa db_three 5000 (servidor "Davi" "44444444444"))) 4
     = Some (insert_row 4 5000 (servidor "Davi" "44444444444")).
Proof.
  split; [reflexivity|].
  apply (createPessoa_then_getPessoaById db_three 5000
           (servidor "Davi" "44444444444")
           (insert_row 4 5000 (servidor "Davi" "44444444444"))).
  - apply wf_check_sound; reflexivity.
  - left; reflexivity.
  - reflexivity.
Defined.

(** X6.  [createPessoa], [updatePessoa] and [deletePessoa] each keep the key
    constraints of [pessoas]: ids and CPFs stay unique and the identity
    sequence stays ahead of the stored ids, whether the call resolves or is
    rejected. *)
Theorem pessoas_key_constraints_kept
    (db : Db) (now id : Z) (pessoa : InsertPessoa.t) (patch : PartialInsertPessoa.t) :
  wf db ->
  wf (fst (createPessoa db now pessoa))
  /\ wf (fst (updatePessoa db now id patch))
  /\ wf (deletePessoa db now id).
Proof.
  intros Hwf. split; [now apply wf_createPessoa|].
  split; [now apply wf_updatePessoa | now apply wf_deletePessoa].
Qed.

Lemma pessoas_key_constraints_kept_witness :
  wf (fst (updatePessoa db_three 5000 1
             (PartialInsertPessoa.mk None None (Some "99999999999"%string) None None
                None None None None None None None None None None None))).
Proof.
  apply (pessoas_key_constraints_kept db_three 5000 1 (servidor "Davi" "44444444444")).
  apply wf_check_sound; reflexivity.
Defined.

(** X7.  Neither [updatePessoa] nor [deletePessoa] adds or removes a row or
    changes a row's [id] or [createdAt]; [deletePessoa] changes no [cpf],
    [nome] or [tipoPessoa] either. *)
Theorem update_delete_keep_identity
    (db : Db) (now id : Z) (patch : PartialInsertPessoa.t) :
  Forall2 (fun old new => Pessoa.id new = Pessoa.id old
                          /\ Pessoa.createdAt new = Pessoa.createdAt old)
    (pessoas db) (pessoas (fst (updatePessoa db now id patch)))
  /\ Forall2 (fun old new => Pessoa.id new = Pessoa.id old
                             /\ Pessoa.createdAt new = Pessoa.createdAt old
                             /\ Pessoa.cpf new = Pessoa.cpf old
                             /\ Pessoa.nome new = Pessoa.nome old
                             /\ Pessoa.tipoPessoa new = Pessoa.tipoPessoa old)
       (pessoas db) (pessoas (deletePessoa db now id)).
Proof.
  split.
  - destruct (updatePessoa_cases db now id patch) as [E|E]; rewrite E;
      cbn [fst with_pessoas pessoas].
    + apply Forall2_map_self. intros q _. now destruct (Pessoa.id q =? id).
    + rewrite <- (map_id (pessoas db)) at 2. apply Forall2_map_self. auto.
  - rewrite deletePessoa_pessoas. apply Forall2_map_self. intros q _.
    destruct (Pessoa.id q =? id); repeat split; reflexivity.
Qed.

(** X8.  In a database that satisfies its key constraints, a patch that
    sets the CPF of another stored person is rejected by the unique
    constraint and the database is left as it was. *)
Theorem updatePessoa_cpf_of_another
    (db : Db) (now id : Z) (patch : PartialInsertPessoa.t) (r q : Pessoa.t) :
  wf db ->
  In r (pessoas db) -> Pessoa.id r = id ->
  In q (pessoas db) -> Pessoa.id q <> id ->
  PartialInsertPessoa.cpf patch = Some (Pessoa.cpf q) ->
  updatePessoa db now id patch =
  (db, Reject (unique_violation "pessoas_cpf_unique")).
Proof.
  intros (Hid & _ & _) Hr <- Hq Hne Hcpf.
  destruct (split_by_id _ _ Hid Hr) as (l1 & l2 & Ht & Hoff).
  assert (Hq' : In q (l1 ++ l2)).
  { rewrite Ht in Hq. apply in_app_or in Hq. apply in_or_app.
    destruct Hq as [Hq|[Hq|Hq]]; auto. now subst q. }
  unfold updatePessoa. rewrite Ht.
  change (fun p => eq_int (Some (Pessoa.id p)) (Pessoa.id r))
    with (has_id (Pessoa.id r)).
  rewrite (update_set_one l1 l2 r _ Hoff).
  destruct (unique_after_update _ _) eqn:Eu; [|reflexivity].
  exfalso. apply (unique_after_update_one_inv _ _ _ Eu q Hq').
  cbn [set_pessoa Pessoa.cpf]. now rewrite Hcpf.
Qed.

Lemma updatePessoa_cpf_of_another_witness :
  updatePessoa db_three 5000 1
    (PartialInsertPessoa.mk None None (Some "33333333333"%string) None None
       None None None None None None None None None None None)
  = (db_three, Reject (unique_violation "pessoas_cpf_unique")).
Proof.
  apply (updatePessoa_cpf_of_another db_three 5000 1 _ row_ana row_carla).
  - apply wf_check_sound; reflexivity.
  - simpl; auto.
  - reflexivity.
  - simpl; auto.
  - discriminate.
  - reflexivity.
Defined.

(** X9.  In a database that satisfies its key constraints and for an id
    within the range of the [integer] column, the patch
    [{ isActive: false }] is never rejected and leaves the database that
    [deletePessoa] leaves. *)
Theorem updatePessoa_isActive_false_is_delete (db : Db) (now id : Z) :
  wf db ->
  int4 id = true ->
  fst (updatePessoa db now id (patch_isActive false)) = deletePessoa db now id
  /\ exists r, snd (updatePessoa db now id (patch_isActive false)) = Resolve r.
Proof.
  intros Hwf _. destruct (id_taken (pessoas db) id) eqn:Etaken.
  - apply existsb_exists in Etaken as [r [Hin Er]]. apply Z.eqb_eq in Er.
    destruct (updatePessoa_resolves db now id (patch_isActive false) r Hwf Hin Er)
      as (l1 & l2 & _ & _ & E); [discriminate|].
    split; [|rewrite E; eexists; reflexivity].
    destruct (updatePessoa_cases db now id (patch_isActive false)) as [E'|E'].
    + rewrite E', deletePessoa_map. reflexivity.
    + rewrite E in E'. discriminate E'.
  - rewrite (updatePessoa_unknown_id db now id _ Etaken).
    split; [|eexists; reflexivity]. cbn [fst].
    rewrite deletePessoa_map. rewrite <- (with_pessoas_same db) at 1. f_equal.
    rewrite <- (map_id (pessoas db)) at 1. apply map_ext_in. intros q Hq.
    rewrite id_taken_false in Etaken. specialize (Etaken q Hq).
    apply Z.eqb_neq in Etaken. now rewrite Etaken.
Qed.

Lemma updatePessoa_isActive_false_is_delete_witness :
  fst (updatePessoa db_three 5000 1 (patch_isActive false))
  = deletePessoa db_three 5000 1.
Proof.
  apply (updatePessoa_isActive_false_is_delete db_three 5000 1).
  - apply wf_check_sound; reflexivity.
  - reflexivity.
Defined.

(** X10.  A soft delete does not free the CPF: in a database that satisfies
    its key constraints, after [deletePessoa] of a stored person every
    [POST /api/pessoas] with that person's CPF is answered 500 and stores
    nothing. *)
Theorem deleted_cpf_cannot_be_registered
    (db : Db) (now now' : Z) (r : Pessoa.t) (pessoaData : InsertPessoa.t) :
  wf db ->
  In r (pessoas db) ->
  InsertPessoa.cpf pessoaData = Pessoa.cpf r ->
  snd (post_api_pessoas (deletePessoa db now (Pessoa.id r)) now' (Some pessoaData))
  = mkResponse 500 (body_message "Falha ao cadastrar pessoa")
  /\ pessoas (fst (post_api_pessoas (deletePessoa db now (Pessoa.id r)) now'
                     (Some pessoaData)))
     = pessoas (deletePessoa db now (Pessoa.id r)).
Proof.
  intros (_ & Hcpf & _) Hin Ecpf.
  set (db1 := deletePessoa db now (Pessoa.id r)).
  assert (Hnone : getPessoaByCpf db1 (InsertPessoa.cpf pessoaData) = None).
  { apply getPessoaByCpf_None. intros x Hx Ex. unfold db1 in Hx.
    rewrite deletePessoa_pessoas in Hx. apply in_map_iff in Hx as [q [<- Hq]].
    destruct (Pessoa.id q =? Pessoa.id r) eqn:Eid; [discriminate|].
    apply Z.eqb_neq in Eid. destruct Eid. f_equal.
    apply (NoDup_map_eq Pessoa.cpf (pessoas db)); auto. congruence. }
  assert (Htaken : cpf_taken (pessoas db1) (InsertPessoa.cpf pessoaData) = true).
  { apply cpf_taken_true. exists (set_inactive now r). split; [|now rewrite Ecpf].
    unfold db1. rewrite deletePessoa_pessoas. apply in_map_iff. exists r.
    split; [now rewrite Z.eqb_refl | exact Hin]. }
  destruct (createPessoa_rejects db1 now' pessoaData Htaken) as [Hsame [e He]].
  unfold post_api_pessoas. rewrite Hnone.
  destruct (createPessoa db1 now' pessoaData) as [db' res].
  simpl in Hsame, He. subst res. split; [reflexivity | exact Hsame].
Qed.

Lemma deleted_cpf_cannot_be_registered_witness :
  status (snd (post_api_pessoas (deletePessoa db_three 5000 1) 6000
                 (Some (servidor "Ana" "11111111111")))) = 500.
Proof.
  destruct (deleted_cpf_cannot_be_registered db_three 5000 6000 row_ana
              (servidor "Ana" "11111111111")) as [E _].
  - apply wf_check_sound; reflexivity.
  - simpl; auto.
  - reflexivity.
  - change (Pessoa.id row_ana) with 1 in E. rewrite E. reflexivity.
Defined.

(** ** The dashboard along the operations *)

Lemma totalServidores_count (db : Db) (now : Z) :
  DashboardStats.totalServidores (getDashboardStats db now)
  = count_rows servidor_ativo_b (pessoas db).
Proof.
  unfold getDashboardStats. cbn [DashboardStats.totalServidores].
  apply count_where. intros r. unfold and_. rewrite holds_and3.
  unfold servidor_ativo_b, eq_bool, eq_text; simpl.
  destruct (Pessoa.isActive r) as [[|]|]; simpl; try reflexivity.
  now destruct (String.eqb _ _).
Qed.

Lemma count_rows_app {A : Type} (P : A -> bool) (l l' : list A) :
  count_rows P (l ++ l') = count_rows P l + count_rows P l'.
Proof. unfold count_rows. rewrite filter_app, length_app. lia. Qed.

(** X11.  In a database that satisfies its key constraints, a [createPessoa]
    with a new CPF and [isActive] absent or [true] raises the dashboard's
    [totalServidores] by one when the payload has [tipoPessoa] ['S'] and
    leaves it as it was otherwise; the other three counters do not move. *)
Theorem createPessoa_on_dashboard
    (db : Db) (now now' : Z) (pessoa : InsertPessoa.t) :
  wf db ->
  cpf_taken (pessoas db) (InsertPessoa.cpf pessoa) = false ->
  InsertPessoa.isActive pessoa = None
  \/ InsertPessoa.isActive pessoa = Some (Some true) ->
  getDashboardStats (fst (createPessoa db now pessoa)) now' =
  DashboardStats.mk
    (DashboardStats.totalServidores (getDashboardStats db now')
     + (if String.eqb (InsertPessoa.tipoPessoa pessoa) "S" then 1 else 0))
    (DashboardStats.afastamentosAtivos (getDashboardStats db now'))
    (DashboardStats.diariasPendentes (getDashboardStats db now'))
    (DashboardStats.armamentoEmUso (getDashboardStats db now')).
Proof.
  intros Hwf Hfree Hactive.
  rewrite (createPessoa_resolves db now pessoa (wf_seq_fresh db Hwf) Hfree).
  cbn [fst].
  set (db' := with_pessoas _ _).
  assert (Htotal : DashboardStats.totalServidores (getDashboardStats db' now')
                   = DashboardStats.totalServidores (getDashboardStats db now')
                     + (if String.eqb (InsertPessoa.tipoPessoa pessoa) "S"
                        then 1 else 0)).
  { rewrite !totalServidores_count. unfold db'. cbn [with_pessoas pessoas].
    rewrite count_rows_app. f_equal. unfold count_rows. cbn [filter].
    unfold servidor_ativo_b. cbn [insert_row Pessoa.isActive Pessoa.tipoPessoa].
    destruct Hactive as [-> | ->];
      now destruct (String.eqb (InsertPessoa.tipoPessoa pessoa) "S"). }
  rewrite <- Htotal. reflexivity.
Qed.

Lemma createPessoa_on_dashboard_witness :
  DashboardStats.totalServidores
    (getDashboardStats
       (fst (createPessoa db_three 5000 (servidor "Davi" "44444444444"))) 6000)
  = DashboardStats.totalServidores (getDashboardStats db_three 6000) + 1.
Proof.
  rewrite (createPessoa_on_dashboard db_three 5000 6000 (servidor "Davi" "44444444444")).
  - reflexivity.
  - apply wf_check_sound; reflexivity.
  - reflexivity.
  - left; reflexivity.
Defined.

Lemma deletePessoa_split (db : Db) (now : Z) (r : Pessoa.t) :
  NoDup (map Pessoa.id (pessoas db)) -> In r (pessoas db) ->
  exists l1 l2,
    pessoas db = l1 ++ r :: l2
    /\ pessoas (deletePessoa db now (Pessoa.id r)) = l1 ++ set_inactive now r :: l2.
Proof.
  intros Hnd Hin. destruct (split_by_id _ _ Hnd Hin) as (l1 & l2 & Ht & Hoff).
  exists l1, l2. split; [exact Ht|].
  rewrite deletePessoa_pessoas, Ht, map_app. cbn [map]. rewrite Z.eqb_refl.
  f_equal; [|f_equal].
  - rewrite <- (map_id l1) at 2. apply map_ext_in. intros q Hq.
    assert (Pessoa.id q <> Pessoa.id r) by (apply Hoff, in_or_app; now left).
    apply Z.eqb_neq in H. now rewrite H.
  - rewrite <- (map_id l2) at 2. apply map_ext_in. intros q Hq.
    assert (Pessoa.id q <> Pessoa.id r) by (apply Hoff, in_or_app; now right).
    apply Z.eqb_neq in H. now rewrite H.
Qed.

(** X12.  Under the primary key of [pessoas], the soft delete of an active
    person of type ['S'] lowers [totalServidores] by exactly one, and the
    soft delete of any other stored person leaves it as it was. *)
Theorem deletePessoa_on_dashboard (db : Db) (now now' : Z) (r : Pessoa.t) :
  NoDup (map Pessoa.id (pessoas db)) ->
  In r (pessoas db) ->
  DashboardStats.totalServidores
    (getDashboardStats (deletePessoa db now (Pessoa.id r)) now')
  = DashboardStats.totalServidores (getDashboardStats db now')
    - (if servidor_ativo_b r then 1 else 0).
Proof.
  intros Hnd Hin. rewrite !totalServidores_count.
  destruct (deletePessoa_split db now r Hnd Hin) as (l1 & l2 & -> & ->).
  rewrite !count_rows_app.
  change (r :: l2) with ([r] ++ l2).
  change (set_inactive now r :: l2) with ([set_inactive now r] ++ l2).
  rewrite !count_rows_app. unfold count_rows at 2 5. cbn [filter].
  replace (servidor_ativo_b (set_inactive now r)) with false by reflexivity.
  destruct (servidor_ativo_b r); cbn [length]; lia.
Qed.

Lemma deletePessoa_on_dashboard_witness :
  DashboardStats.totalServidores (getDashboardStats (deletePessoa db_three 5000 1) 6000)
  = DashboardStats.totalServidores (getDashboardStats db_three 6000) - 1.
Proof.
  apply (deletePessoa_on_dashboard db_three 5000 6000 row_ana).
  - apply (distinct_NoDup Z.eqb); [apply Z.eqb_eq | reflexivity].
  - simpl; auto.
Defined.

(** ** The other list queries *)

Lemma getDiarias_final_where (db : Db) (filters : option DiariaFilters.t) :
  getDiarias db filters =
  sort_desc Diaria.createdAt
    (filter (fun d => Sql.holds (diarias_final_where filters d)) (diarias db)).
Proof.
  unfold getDiarias, diarias_final_where.
  destruct (opt_chain filters DiariaFilters.dataFim);
    destruct (opt_chain filters DiariaFilters.dataInicio);
    destruct (truthy_number (opt_chain filters DiariaFilters.statusId));
    destruct (truthy_number (opt_chain filters DiariaFilters.pessoaId));
    reflexivity.
Qed.

(** X13.  With [pessoaId] and [statusId] absent or [0] and no date given,
    [getDiarias] answers with the active per-diem requests and nothing
    else, newest first. *)
Theorem getDiarias_blank_filters (db : Db) (f : DiariaFilters.t) :
  DiariaFilters.pessoaId f = None \/ DiariaFilters.pessoaId f = Some 0 ->
  DiariaFilters.statusId f = None \/ DiariaFilters.statusId f = Some 0 ->
  DiariaFilters.dataInicio f = None ->
  DiariaFilters.dataFim f = None ->
  getDiarias db (Some f) = getDiarias db None
  /\ StronglySorted (desc Diaria.createdAt) (getDiarias db (Some f))
  /\ forall d, In d (getDiarias db (Some f)) <->
               In d (diarias db) /\ Diaria.isActive d = Some true.
Proof.
  intros Hp Hs Hi Hf.
  assert (E : getDiarias db (Some f) = getDiarias db None).
  { rewrite !getDiarias_final_where. unfold diarias_final_where, opt_chain.
    rewrite Hi, Hf. destruct Hp as [-> | ->], Hs as [-> | ->]; reflexivity. }
  split; [exact E|]. rewrite E, getDiarias_final_where.
  split; [apply sort_desc_sorted|]. intros d. rewrite sort_desc_In, filter_In.
  unfold diarias_final_where, opt_chain, truthy_number, eq_bool, Sql.cmp, Sql.holds.
  destruct (Diaria.isActive d) as [[|]|]; simpl; intuition congruence.
Qed.

Lemma getDiarias_blank_filters_witness :
  getDiarias db_feed (Some (DiariaFilters.mk (Some 0) None None None))
  = getDiarias db_feed None
  /\ length (getDiarias db_feed None) = 3%nat.
Proof.
  split; [|reflexivity].
  apply (getDiarias_blank_filters db_feed (DiariaFilters.mk (Some 0) None None None));
    auto.
Defined.



Lemma filter_length_mono {A : Type} (f g : A -> bool) (l : list A) :
  (forall x, f x = true -> g x = true) ->
  (length (filter f l) <= length (filter g l))%nat.
Proof.
  intros H. induction l as [|a l IH]; simpl; [lia|].
  destruct (f a) eqn:E.
  - rewrite (H a E). simpl. lia.
  - destruct (g a); simpl; lia.
Qed.

(** X15.  Each of three dashboard counters is at most the length of the
    list its page shows: [totalServidores] against
    [getPessoas({ tipoPessoa: 'S' })], [diariasPendentes] against
    [getDiarias({ statusId: 1 })] and [armamentoEmUso] against
    [getArmamentos({ situacao: 'EM_USO' })]. *)
Theorem dashboard_counters_le_lists (db : Db) (now : Z) :
  DashboardStats.totalServidores (getDashboardStats db now)
  <= Z.of_nat (length (getPessoas db (Some (PessoaFilters.mk None None (Some "S"%string)))))
  /\ DashboardStats.diariasPendentes (getDashboardStats db now)
     <= Z.of_nat (length (getDiarias db (Some (DiariaFilters.mk None (Some 1) None None))))
  /\ DashboardStats.armamentoEmUso (getDashboardStats db now)
     <= Z.of_nat (length (getArmamentos db
                            (Some (ArmamentoFilters.mk (Some "EM_USO"%string) None)))).
Proof.
  unfold getDashboardStats, count, execute, where_, select_from.
  cbn [DashboardStats.totalServidores DashboardStats.diariasPendentes
       DashboardStats.armamentoEmUso config_where config_orderBy config_limit from].
  split; [|split]; apply inj_le.
  - change (getPessoas db (Some (PessoaFilters.mk None None (Some "S"%string))))
      with (sort_desc Pessoa.createdAt
              (filter (fun p => Sql.holds (eq_text (Some (Pessoa.tipoPessoa p)) "S"))
                 (pessoas db))).
    rewrite sort_desc_length. apply filter_length_mono. intros p.
    unfold and_. rewrite holds_and3. intros H. now apply andb_prop in H.
  - change (getDiarias db (Some (DiariaFilters.mk None (Some 1) None None)))
      with (sort_desc Diaria.createdAt
              (filter (fun d => Sql.holds (eq_int (Some (Diaria.statusId d)) 1))
                 (diarias db))).
    rewrite sort_desc_length. apply filter_length_mono. intros d.
    unfold and_. rewrite holds_and3. intros H. now apply andb_prop in H.
  - change (getArmamentos db (Some (ArmamentoFilters.mk (Some "EM_USO"%string) None)))
      with (sort_desc Armamento.createdAt
              (filter (fun w => Sql.holds (eq_text (Armamento.situacao w) "EM_USO"))
                 (armamento db))).
    rewrite sort_desc_length. apply filter_length_mono. intros w.
    unfold and_. rewrite holds_and3. intros H. now apply andb_prop in H.
Qed.

(** ** The recent activities along the operations *)

Lemma getRecentActivities_unfold (db : Db) :
  getRecentActivities db =
  sort_desc Activity.data
    (map pessoa_criada
       (firstn 3 (sort_desc Pessoa.createdAt (filter is_active (pessoas db))))
     ++ map diaria_criada
          (firstn 2 (sort_desc (fun dp => Diaria.createdAt (fst dp))
                       (diarias_ativas_joined db)))).
Proof. reflexivity. Qed.

Lemma sort_desc_snoc_max {R : Type} (key : R -> Z) (l : list R) (x : R) :
  (forall y, In y l -> key y < key x) ->
  sort_desc key (l ++ [x]) = x :: sort_desc key l.
Proof.
  induction l as [|a l IH]; intros H; [reflexivity|].
  cbn [app sort_desc fold_right]. fold (sort_desc key (l ++ [x])).
  fold (sort_desc key l).
  rewrite IH by (intros y Hy; apply H; now right).
  cbn [insert_desc].
  assert (key a < key x) by (apply H; now left).
  replace (key x <=? key a) with false by (symmetry; apply Z.leb_gt; lia).
  reflexivity.
Qed.

(** X16.  In a database that satisfies its key constraints, a person
    created with a new CPF, [isActive] absent or [true], at a time later
    than every stored [createdAt], is listed in the recent activities right
    after the insert. *)
Theorem createPessoa_in_recent_activities
    (db : Db) (now : Z) (pessoa : InsertPessoa.t) :
  wf db ->
  cpf_taken (pessoas db) (InsertPessoa.cpf pessoa) = false ->
  InsertPessoa.isActive pessoa = None
  \/ InsertPessoa.isActive pessoa = Some (Some true) ->
  (forall p, In p (pessoas db) -> Pessoa.createdAt p < now) ->
  In (pessoa_criada (insert_row (pessoas_id_seq db) now pessoa))
     (getRecentActivities (fst (createPessoa db now pessoa))).
Proof.
  intros Hwf Hfree Hactive Hnew.
  rewrite (createPessoa_resolves db now pessoa (wf_seq_fresh db Hwf) Hfree).
  cbn [fst]. rewrite getRecentActivities_unfold. cbn [with_pessoas pessoas].
  apply sort_desc_In, in_or_app. left. apply in_map.
  rewrite filter_app. cbn [filter].
  replace (is_active (insert_row (pessoas_id_seq db) now pessoa)) with true.
  - rewrite sort_desc_snoc_max; [now left|].
    intros y Hy. apply filter_In in Hy as [Hy _].
    cbn [insert_row Pessoa.createdAt]. now apply Hnew.
  - symmetry. apply is_active_true. cbn [insert_row Pessoa.isActive].
    destruct Hactive as [-> | ->]; reflexivity.
Qed.

Lemma createPessoa_in_recent_activities_witness :
  In (pessoa_criada (insert_row 4 5000 (servidor "Davi" "44444444444")))
     (getRecentActivities (fst (createPessoa db_three 5000 (servidor "Davi" "44444444444")))).
Proof.
  apply (createPessoa_in_recent_activities db_three 5000 (servidor "Davi" "44444444444")).
  - apply wf_check_sound; reflexivity.
  - reflexivity.
  - left; reflexivity.
  - intros p [<-|[<-|[<-|[]]]]; simpl; lia.
Defined.

Lemma In_firstn {A : Type} (n : nat) (l : list A) (x : A) :
  In x (firstn n l) -> In x l.
Proof.
  intros H. rewrite <- (firstn_skipn n l). apply in_or_app. now left.
Qed.

(** X17.  Every person entry of the recent activities is the activity of a
    stored, active person; so after [deletePessoa] no person entry carries
    the deleted id. *)
Theorem recent_activities_list_active_persons (db : Db) (a : Activity.t) :
  (In a (getRecentActivities db) ->
   Activity.tipo a = "pessoa_criada"%string ->
   exists p, In p (pessoas db) /\ Pessoa.isActive p = Some true
             /\ a = pessoa_criada p)
  /\ forall now id,
       In a (getRecentActivities (deletePessoa db now id)) ->
       Activity.tipo a = "pessoa_criada"%string ->
       Activity.id a <> id.
Proof.
  assert (Hactive : forall db0,
    In a (getRecentActivities db0) ->
    Activity.tipo a = "pessoa_criada"%string ->
    exists p, In p (pessoas db0) /\ Pessoa.isActive p = Some true
              /\ a = pessoa_criada p).
  { intros db0 Hin Htipo. rewrite getRecentActivities_unfold in Hin.
    apply sort_desc_In, in_app_or in Hin as [Hin|Hin];
      apply in_map_iff in Hin as [x [<- Hx]].
    - exists x. apply In_firstn, sort_desc_In, filter_In in Hx as [Hx Ha].
      apply is_active_true in Ha. auto.
    - discriminate Htipo. }
  split; [apply Hactive|]. intros now id Hin Htipo.
  destruct (Hactive _ Hin Htipo) as (p & Hp & Ha & ->).
  cbn [pessoa_criada Activity.id]. intros Eid.
  rewrite deletePessoa_pessoas in Hp. apply in_map_iff in Hp as [q [<- Hq]].
  destruct (Pessoa.id q =? id) eqn:E.
  - discriminate Ha.
  - apply Z.eqb_neq in E. now apply E.
Qed.

Lemma recent_activities_list_active_persons_witness :
  exists p, In p (pessoas db_feed) /\ Pessoa.isActive p = Some true
            /\ pessoa_criada row_bruno = pessoa_criada p.
Proof.
  apply (proj1 (recent_activities_list_active_persons db_feed
                  (pessoa_criada row_bruno))).
  - simpl. auto 10.
  - reflexivity.
Defined.

(** ** The routes of [/api/pessoas] *)

Lemma accepted_id_Some (n : Z) : int4 n = true -> accepted_id (Some n) = Some n.
Proof. intros H. unfold accepted_id. now rewrite H. Qed.

Lemma deletePessoa_unknown_id (db : Db) (now id : Z) :
  id_taken (pessoas db) id = false -> deletePessoa db now id = db.
Proof.
  intros Hfree. rewrite deletePessoa_map.
  transitivity (with_pessoas db (pessoas db)); [|apply with_pessoas_same].
  f_equal. rewrite <- (map_id (pessoas db)) at 2. apply map_ext_in.
  intros q Hq.
  rewrite id_taken_false in Hfree. specialize (Hfree q Hq).
  apply Z.eqb_neq in Hfree. now rewrite Hfree.
Qed.

Lemma getPessoaById_after_deletePessoa (db : Db) (now id : Z) :
  getPessoaById (deletePessoa db now id) id = None.
Proof.
  apply getPessoaById_None. intros x Hx Ex.
  rewrite deletePessoa_pessoas in Hx. apply in_map_iff in Hx as [q [<- Hq]].
  destruct (Pessoa.id q =? id) eqn:E; [discriminate|].
  apply Z.eqb_neq in E. now destruct E.
Qed.

(** X18.  For an id within the range of the [integer] column, stored or
    not, [DELETE /api/pessoas/:id] answers 204; right after it
    [GET /api/pessoas/:id] answers 404; and with no row of that id the
    database is left as it was.  For a parameter that is not a number, or a
    number outside that range, both routes answer 500 and the database is
    left as it was. *)
Theorem delete_api_pessoas_id_then_get (db : Db) (now : Z) (id : option Z) :
  (forall n, id = Some n -> int4 n = true ->
     snd (delete_api_pessoas_id db now id) = mkReply 204 no_body
     /\ get_api_pessoas_id (fst (delete_api_pessoas_id db now id)) id
        = mkReply 404 (json_message "Pessoa não encontrada")
     /\ (id_taken (pessoas db) n = false ->
         fst (delete_api_pessoas_id db now id) = db))
  /\ (accepted_id id = None ->
      delete_api_pessoas_id db now id
      = (db, mkReply 500 (json_message "Falha ao excluir pessoa"))
      /\ get_api_pessoas_id db id
         = mkReply 500 (json_message "Falha ao carregar dados da pessoa")).
Proof.
  split.
  - intros n -> Hn. unfold delete_api_pessoas_id, get_api_pessoas_id.
    rewrite (accepted_id_Some n Hn). cbn [fst snd].
    split; [reflexivity|]. split.
    + now rewrite getPessoaById_after_deletePessoa.
    + apply deletePessoa_unknown_id.
  - intros Hid. unfold delete_api_pessoas_id, get_api_pessoas_id.
    now rewrite Hid.
Qed.

Lemma delete_api_pessoas_id_then_get_witness :
  (snd (delete_api_pessoas_id db_three 5000 (Some 1)) = mkReply 204 no_body
   /\ get_api_pessoas_id db_three (Some 1) = mkReply 200 (json_pessoa row_ana)
   /\ get_api_pessoas_id (fst (delete_api_pessoas_id db_three 5000 (Some 1))) (Some 1)
      = mkReply 404 (json_message "Pessoa não encontrada"))
  /\ delete_api_pessoas_id db_three 5000 (Some 99999999999)
     = (db_three, mkReply 500 (json_message "Falha ao excluir pessoa"))
  /\ delete_api_pessoas_id db_three 5000 None
     = (db_three, mkReply 500 (json_message "Falha ao excluir pessoa")).
Proof.
  destruct (delete_api_pessoas_id_then_get db_three 5000 (Some 1)) as (Hok & _).
  destruct (Hok 1 eq_refl eq_refl) as (H204 & H404 & _).
  destruct (delete_api_pessoas_id_then_get db_three 5000 (Some 99999999999))
    as (_ & Hbig).
  destruct (delete_api_pessoas_id_then_get db_three 5000 None) as (_ & Hnan).
  split; [split; [exact H204 | split; [reflexivity | exact H404]]|].
  split; [exact (proj1 (Hbig eq_refl)) | exact (proj1 (Hnan eq_refl))].
Defined.

(** X19.  [PUT /api/pessoas/:id] never answers 404: with a valid body, an
    id within the range of the [integer] column that no row has is answered
    200 with an empty body, and a parameter that is not a number, or a
    number outside that range, is answered 500; in both cases the database
    is left as it was. *)
Theorem put_api_pessoas_id_unknown_id
    (db : Db) (now : Z) (id : option Z) (parsed : option PartialInsertPessoa.t) :
  reply_status (snd (put_api_pessoas_id db now id parsed)) <> 404
  /\ (forall n pessoaData,
        parsed = Some pessoaData ->
        id = Some n -> int4 n = true ->
        id_taken (pessoas db) n = false ->
        put_api_pessoas_id db now id parsed = (db, mkReply 200 json_undefined))
  /\ (forall pessoaData,
        parsed = Some pessoaData ->
        accepted_id id = None ->
        put_api_pessoas_id db now id parsed
        = (db, mkReply 500 (json_message "Falha ao atualizar dados da pessoa"))).
Proof.
  split; [|split].
  - unfold put_api_pessoas_id. destruct parsed as [pessoaData|]; [|discriminate].
    destruct (accepted_id id) as [n|]; [|discriminate].
    destruct (updatePessoa db now n pessoaData) as [db' [[r|]|e]]; discriminate.
  - intros n pessoaData -> -> Hn Hfree. unfold put_api_pessoas_id.
    rewrite (accepted_id_Some n Hn).
    now rewrite (updatePessoa_unknown_id db now n pessoaData Hfree).
  - intros pessoaData -> Hid. unfold put_api_pessoas_id. now rewrite Hid.
Qed.

Lemma put_api_pessoas_id_unknown_id_witness :
  put_api_pessoas_id db_three 5000 (Some 9) (Some (patch_nome "Zeca"))
  = (db_three, mkReply 200 json_undefined)
  /\ put_api_pessoas_id db_three 5000 (Some 99999999999) (Some (patch_nome "Zeca"))
     = (db_three, mkReply 500 (json_message "Falha ao atualizar dados da pessoa")).
Proof.
  split.
  - apply (proj1 (proj2 (put_api_pessoas_id_unknown_id db_three 5000 (Some 9)
                           (Some (patch_nome "Zeca")))) 9 (patch_nome "Zeca"));
      reflexivity.
  - apply (proj2 (proj2 (put_api_pessoas_id_unknown_id db_three 5000
                           (Some 99999999999) (Some (patch_nome "Zeca"))))
             (patch_nome "Zeca"));
      reflexivity.
Defined.



(** * Properties of the client helpers *)

(** ** Digits *)

Arguments is_digit : simpl never.

Lemma is_digit_dot : is_digit "." = false.
Proof. reflexivity. Qed.

Lemma is_digit_dash : is_digit "-" = false.
Proof. reflexivity. Qed.

Lemma is_digit_not_dash (c : ascii) : is_digit c = true -> Ascii.eqb c "-" = false.
Proof.
  intros H. destruct (Ascii.eqb c "-") eqn:E; [|reflexivity].
  apply Ascii.eqb_eq in E. subst c. discriminate H.
Qed.

Lemma strip_non_digits_all_digits (s : string) :
  all_digits (strip_non_digits s) = true.
Proof.
  induction s as [|c s IH]; cbn [strip_non_digits]; [reflexivity|].
  destruct (is_digit c) eqn:E; [|exact IH].
  cbn [all_digits]. now rewrite E, IH.
Qed.

Lemma digits_prefix_length (n : nat) (s : string) :
  digits_prefix n s = true -> (n <= String.length s)%nat.
Proof.
  revert s. induction n as [|n IH]; intros s H; [lia|].
  destruct s as [|c s]; [discriminate|]. cbn [digits_prefix] in H.
  apply andb_prop in H as [_ H]. specialize (IH s H). cbn [String.length]. lia.
Qed.

(** ** [ServidoresList.formatCPF] *)

Lemma formatCPF_display_match (s : string) :
  digits_prefix 11 s = true ->
  strip_non_digits
    (take 3 s ++ "." ++ take 3 (drop 3 s) ++ "." ++ take 3 (drop 6 s)
     ++ "-" ++ take 2 (drop 9 s) ++ drop 11 s)
  = strip_non_digits s.
Proof.
  intros H.
  do 11 (destruct s as [|? s]; [discriminate H|];
         cbn [digits_prefix] in H; apply andb_prop in H as [? H]).
  cbn [take drop String.append strip_non_digits].
  repeat match goal with E : is_digit _ = true |- _ => rewrite E; clear E end.
  rewrite is_digit_dot, is_digit_dash. reflexivity.
Qed.

(** X21.  The display mask of a CPF never alters its digits; it leaves a
    text of fewer than 11 characters as it is; and it writes a CPF of 11
    digits as [ddd.ddd.ddd-dd], 14 characters long. *)
Theorem ServidoresList_formatCPF_digits (cpf : string) :
  strip_non_digits (ServidoresList.formatCPF cpf) = strip_non_digits cpf
  /\ ((String.length cpf < 11)%nat -> ServidoresList.formatCPF cpf = cpf)
  /\ (all_digits cpf = true -> String.length cpf = 11%nat ->
      ServidoresList.formatCPF cpf =
      (take 3 cpf ++ "." ++ take 3 (drop 3 cpf) ++ "." ++ take 3 (drop 6 cpf)
       ++ "-" ++ drop 9 cpf)%string
      /\ String.length (ServidoresList.formatCPF cpf) = 14%nat).
Proof.
  split; [|split].
  - induction cpf as [|c rest IH]; [reflexivity|].
    cbn [ServidoresList.formatCPF].
    destruct (digits_prefix 11 (String c rest)) eqn:E.
    + now apply formatCPF_display_match.
    + cbn [strip_non_digits]. now rewrite IH.
  - induction cpf as [|c rest IH]; [reflexivity|]. intros Hlen.
    cbn [ServidoresList.formatCPF].
    destruct (digits_prefix 11 (String c rest)) eqn:E.
    + apply digits_prefix_length in E. lia.
    + f_equal. apply IH. cbn [String.length] in Hlen. lia.
  - intros Hd Hlen.
    do 11 (destruct cpf as [|? cpf]; [discriminate Hlen|];
           cbn [all_digits] in Hd; apply andb_prop in Hd as [? Hd]).
    destruct cpf; [|discriminate Hlen].
    cbn [ServidoresList.formatCPF digits_prefix].
    repeat match goal with E : is_digit _ = true |- _ => rewrite E; clear E end.
    split; reflexivity.
Qed.

Lemma ServidoresList_formatCPF_digits_witness :
  ServidoresList.formatCPF "12345678901" = "123.456.789-01"%string
  /\ ServidoresList.formatCPF "1234567" = "1234567"%string.
Proof.
  destruct (ServidoresList_formatCPF_digits "12345678901") as (_ & _ & H11).
  destruct (ServidoresList_formatCPF_digits "1234567") as (_ & H7 & _).
  split; [apply H11; reflexivity | apply H7; simpl; lia].
Defined.

(** ** [ServidorForm.formatCPF] *)

Lemma eqb_dot_dash : Ascii.eqb "." "-" = false.
Proof. reflexivity. Qed.

Lemma eqb_dash_dash : Ascii.eqb "-" "-" = true.
Proof. reflexivity. Qed.

Ltac digit_facts :=
  cbn [all_digits] in *;
  repeat match goal with
    | H : _ && _ = true |- _ =>
        let Hc := fresh "Hc" in
        apply andb_prop in H as [Hc H];
        pose proof (is_digit_not_dash _ Hc)
    end.

Ltac mask_step :=
  cbn [ServidorForm.replace_3_1 ServidorForm.replace_tail digits_prefix all_digits
       take drop String.append strip_non_digits andb negb String.eqb];
  repeat match goal with
    | E : is_digit _ = true |- _ => rewrite !E
    | E : Ascii.eqb _ "-" = false |- _ => rewrite !E
    | E : all_digits _ = true |- _ => rewrite !E
    end;
  rewrite ?is_digit_dot, ?is_digit_dash, ?eqb_dot_dash, ?eqb_dash_dash,
    ?andb_false_r, ?andb_true_r.

Lemma mask_keeps_11_digits (digits : string) :
  all_digits digits = true ->
  strip_non_digits
    (ServidorForm.replace_tail
       (ServidorForm.replace_3_1 "-"
          (ServidorForm.replace_3_1 "."
             (ServidorForm.replace_3_1 "." digits))))
  = take 11 digits.
Proof.
  intros H.
  do 12 (destruct digits as [|? digits];
         [digit_facts; repeat mask_step; reflexivity|]).
  digit_facts. repeat mask_step. reflexivity.
Qed.

Lemma all_digits_take (n : nat) (s : string) :
  all_digits s = true -> all_digits (take n s) = true.
Proof.
  revert s. induction n as [|n IH]; intros [|c s] H; try reflexivity.
  cbn [all_digits] in H. apply andb_prop in H as [Hc H].
  cbn [take all_digits]. now rewrite Hc, IH.
Qed.

Lemma length_take_le (n : nat) (s : string) : (String.length (take n s) <= n)%nat.
Proof.
  revert s. induction n as [|n IH]; intros [|c s]; cbn [take String.length];
    try lia. specialize (IH s). lia.
Qed.

(** X22.  Whatever is typed or pasted into the CPF field, the value the
    form keeps is the first 11 digits of it, in order: never a character
    that is not a digit, never more than 11. *)
Theorem ServidorForm_onChange_keeps_11_digits (typed : string) :
  ServidorForm.onChange_value typed = take 11 (strip_non_digits typed)
  /\ all_digits (ServidorForm.onChange_value typed) = true
  /\ (String.length (ServidorForm.onChange_value typed) <= 11)%nat.
Proof.
  assert (E : ServidorForm.onChange_value typed = take 11 (strip_non_digits typed)).
  { unfold ServidorForm.onChange_value, ServidorForm.formatCPF.
    apply mask_keeps_11_digits, strip_non_digits_all_digits. }
  rewrite E. split; [reflexivity|]. split.
  - apply all_digits_take, strip_non_digits_all_digits.
  - apply length_take_le.
Qed.

(** X23.  On a CPF of 11 digits the mask of the form and the mask of the
    list write the same text. *)
Theorem formatCPF_masks_agree (cpf : string) :
  all_digits cpf = true ->
  String.length cpf = 11%nat ->
  ServidorForm.formatCPF cpf = ServidoresList.formatCPF cpf.
Proof.
  intros Hd Hlen.
  do 11 (destruct cpf as [|? cpf]; [discriminate Hlen|]).
  destruct cpf; [|discriminate Hlen].
  digit_facts. unfold ServidorForm.formatCPF.
  cbn [ServidoresList.formatCPF]. repeat mask_step. reflexivity.
Qed.

Lemma formatCPF_masks_agree_witness :
  ServidorForm.formatCPF "12345678901" = ServidoresList.formatCPF "12345678901".
Proof. apply formatCPF_masks_agree; reflexivity. Defined.

(** ** [Sidebar.toggleExpanded] *)

Lemma includes_In (itemId : string) (prev : list string) :
  existsb (String.eqb itemId) prev = true <-> In itemId prev.
Proof.
  rewrite existsb_exists. split.
  - intros [x [Hx E]]. apply String.eqb_eq in E. now subst x.
  - intros H. exists itemId. split; [exact H | apply String.eqb_refl].
Qed.

Lemma toggleExpanded_In (itemId : string) (prev : list string) (x : string) :
  In x (Sidebar.toggleExpanded itemId prev) <->
  (x = itemId /\ ~ In itemId prev) \/ (x <> itemId /\ In x prev).
Proof.
  unfold Sidebar.toggleExpanded.
  destruct (existsb (String.eqb itemId) prev) eqn:E.
  - apply includes_In in E. rewrite filter_In, negb_true_iff, String.eqb_neq.
    tauto.
  - assert (Hnot : ~ In itemId prev).
    { intros H. apply includes_In in H. congruence. }
    rewrite in_app_iff. cbn [In].
    destruct (string_dec x itemId) as [-> | Hne]; [tauto|].
    split; [intros [H | [H | []]]; [tauto | congruence] | tauto].
Qed.

(** X24.  Toggling a menu item flips whether it is expanded and nothing
    else: afterwards the item is in the list exactly when it was not, every
    other item is in it exactly when it was, a list without repetition stays
    so, and toggling twice gives back a list with the items it had. *)
Theorem toggleExpanded_flips (itemId : string) (prev : list string) :
  (In itemId (Sidebar.toggleExpanded itemId prev) <-> ~ In itemId prev)
  /\ (forall x, x <> itemId ->
        (In x (Sidebar.toggleExpanded itemId prev) <-> In x prev))
  /\ (NoDup prev -> NoDup (Sidebar.toggleExpanded itemId prev))
  /\ (forall x, In x (Sidebar.toggleExpanded itemId
                        (Sidebar.toggleExpanded itemId prev)) <-> In x prev).
Proof.
  split; [|split; [|split]].
  - rewrite toggleExpanded_In. tauto.
  - intros x Hne. rewrite toggleExpanded_In. tauto.
  - intros Hnd. unfold Sidebar.toggleExpanded.
    destruct (existsb (String.eqb itemId) prev) eqn:E.
    + now apply NoDup_filter.
    + apply NoDup_snoc; [exact Hnd|]. intros H. apply includes_In in H. congruence.
  - intros x. rewrite !toggleExpanded_In.
    destruct (string_dec x itemId) as [-> | Hne]; [|tauto].
    destruct (in_dec string_dec itemId prev); tauto.
Qed.

Lemma toggleExpanded_flips_witness :
  NoDup (Sidebar.toggleExpanded "frequencia"
           ["pessoas"%string; "frequencia"%string; "relatorios"%string])
  /\ Sidebar.toggleExpanded "frequencia"
       ["pessoas"%string; "frequencia"%string; "relatorios"%string]
     = ["pessoas"%string; "relatorios"%string].
Proof.
  split; [|reflexivity].
  apply (toggleExpanded_flips "frequencia").
  apply (distinct_NoDup String.eqb); [apply String.eqb_eq | reflexivity].
Defined.

(** * Time stamps along a run *)

(** X25.  With a clock that does not go back, the three writes keep the
    stamps of [pessoas] in order: no stamp is ahead of the clock and no row
    has an [updatedAt] before its [createdAt]. *)
Theorem pessoas_stamps_kept
    (db : Db) (now now' id : Z) (pessoa : InsertPessoa.t) (patch : PartialInsertPessoa.t) :
  now <= now' ->
  stamps_le now db ->
  stamps_ordered db ->
  (stamps_le now' (fst (createPessoa db now' pessoa))
   /\ stamps_ordered (fst (createPessoa db now' pessoa)))
  /\ (stamps_le now' (fst (updatePessoa db now' id patch))
      /\ stamps_ordered (fst (updatePessoa db now' id patch)))
  /\ (stamps_le now' (deletePessoa db now' id)
      /\ stamps_ordered (deletePessoa db now' id)).
Proof.
  intros Hle Hs Ho.
  assert (Hboth : Forall (fun p => Pessoa.createdAt p <= now'
                                   /\ Pessoa.createdAt p <= Pessoa.updatedAt p)
                    (pessoas db)).
  { unfold stamps_le, stamps_ordered in *. rewrite Forall_forall in *.
    intros p Hp. specialize (Hs p Hp). specialize (Ho p Hp). lia. }
  split; [|split]; split;
    try exact (stamps_le_createPessoa now now' db pessoa Hle Hs);
    try exact (stamps_le_updatePessoa now now' id db patch Hle Hs);
    try exact (stamps_le_deletePessoa now now' id db Hle Hs).
  - unfold createPessoa. cbn [with_pessoas_id_seq pessoas].
    destruct (id_taken _ _); [exact Ho|].
    destruct (cpf_taken _ _); [exact Ho|].
    unfold stamps_ordered in *. cbn [fst with_pessoas pessoas].
    apply Forall_app. split; [exact Ho|].
    constructor; [|constructor]. cbn [insert_row Pessoa.createdAt Pessoa.updatedAt].
    lia.
  - destruct (updatePessoa_cases db now' id patch) as [E|E]; rewrite E;
      [|exact Ho].
    unfold stamps_ordered. cbn [fst with_pessoas pessoas].
    rewrite Forall_forall in Hboth |- *. intros x Hx.
    apply in_map_iff in Hx as [q [<- Hq]]. specialize (Hboth q Hq).
    destruct (Pessoa.id q =? id); [|tauto].
    cbn [set_pessoa Pessoa.createdAt Pessoa.updatedAt]. tauto.
  - unfold stamps_ordered. rewrite deletePessoa_pessoas.
    rewrite Forall_forall in Hboth |- *. intros x Hx.
    apply in_map_iff in Hx as [q [<- Hq]]. specialize (Hboth q Hq).
    destruct (Pessoa.id q =? id); [|tauto].
    cbn [set_inactive set_pessoa Pessoa.createdAt Pessoa.updatedAt]. tauto.
Qed.

Lemma pessoas_stamps_kept_witness :
  stamps_le 5000 (deletePessoa db_three 5000 1)
  /\ stamps_ordered (deletePessoa db_three 5000 1).
Proof.
  apply (pessoas_stamps_kept db_three 4000 5000 1 (servidor "Davi" "44444444444")
           PartialInsertPessoa.empty).
  - lia.
  - repeat constructor; simpl; lia.
  - repeat constructor; simpl; lia.
Defined.
